(** * A shallow embedding of the Jenkins agent's indexing, routing and
      analysis code

    The development follows the Python sources:
    - [code_indexer.py]  : [EXTENSIONS], [force_delete], [unzip_and_index];
    - [jenkins_tool.py]  : the five Jenkins operations and the keyword router;
    - [agent_runner.py]  : [universal_input_adapter];
    - [memory_manager.py]: [log_interaction], [get_memory];
    - [setup.py]         : [setup_openai_api_key], [setup_existing_jenkins].

    Text is modelled by Rocq strings, a character standing for a code point
    below 256; Python's [lower], [strip], [in], [startswith], [endswith] and
    [split] are written out for that range.  The outside world (HTTP server,
    file system, embedding backend) is explicit: an environment answers the
    requests, and every operation returns its result together with the
    requests it issued. *)

From Stdlib Require Import String Ascii List ZArith Lia Bool Arith.
From Stdlib Require Import DecimalString Permutation.
Import ListNotations.
Open Scope string_scope.

(** ** Python text operations *)

Module PyStr.

Definition chr (n : nat) : ascii := ascii_of_nat n.
Definition nl : string := String (chr 10) "".
Definition dq : string := String (chr 34) "".

(** [str(int)] *)
Definition str_int (z : Z) : string := NilZero.string_of_int (Z.to_int z).

(** [c.lower()] on the code points below 256: the letters A..Z and the
    capital letters of the Latin-1 block (0xC0..0xDE without 0xD7). *)
Definition lower_char (c : ascii) : ascii :=
  let n := nat_of_ascii c in
  if (((65 <=? n) && (n <=? 90))
      || ((192 <=? n) && (n <=? 222) && negb (n =? 215)))%nat
  then ascii_of_nat (n + 32) else c.

Fixpoint lower (s : string) : string :=
  match s with
  | EmptyString => EmptyString
  | String c s' => String (lower_char c) (lower s')
  end.

(** [c.isspace()] on the code points below 256. *)
Definition isspace (c : ascii) : bool :=
  let n := nat_of_ascii c in
  (((9 <=? n) && (n <=? 13)) || ((28 <=? n) && (n <=? 32))
   || (n =? 133) || (n =? 160))%nat.

Fixpoint lstrip (s : string) : string :=
  match s with
  | EmptyString => EmptyString
  | String c s' => if isspace c then lstrip s' else s
  end.

Fixpoint rstrip (s : string) : string :=
  match s with
  | EmptyString => EmptyString
  | String c s' =>
      let r := rstrip s' in
      if isspace c && (r =? "") then EmptyString else String c r
  end.

(** [s.strip()] *)
Definition strip (s : string) : string := rstrip (lstrip s).

(** [s.startswith(p)] *)
Definition startswith (s p : string) : bool := prefix p s.

(** [p in s] *)
Fixpoint contains (p s : string) : bool :=
  prefix p s ||
  match s with
  | EmptyString => false
  | String _ s' => contains p s'
  end.

(** [s.endswith(p)] *)
Fixpoint endswith (s p : string) : bool :=
  (s =? p) ||
  match s with
  | EmptyString => false
  | String _ s' => endswith s' p
  end.

(** [s[:n]] and [s[n:]] for [n >= 0] *)
Fixpoint take (n : nat) (s : string) : string :=
  match n, s with
  | S k, String c s' => String c (take k s')
  | _, _ => EmptyString
  end.

Fixpoint drop (n : nat) (s : string) : string :=
  match n, s with
  | S k, String _ s' => drop k s'
  | _, _ => s
  end.

(** [sep.join(l)] *)
Fixpoint join (sep : string) (l : list string) : string :=
  match l with
  | [] => ""
  | [x] => x
  | x :: rest => x ++ sep ++ join sep rest
  end.

(** [s.split(sep, maxsplit)] for a non-empty [sep]: the text is scanned from
    the left, [cur] is the piece being read, [skip] counts the characters of
    a separator just found that are still to be passed over, and [budget] is
    the number of cuts still allowed ([None] for no limit). *)
Fixpoint split_go (sep : string) (budget : option nat) (skip : nat)
         (cur s : string) : list string :=
  match s with
  | EmptyString => [cur]
  | String c s' =>
      match skip with
      | S k => split_go sep budget k cur s'
      | O =>
          match budget with
          | Some O => split_go sep budget 0 (cur ++ String c "") s'
          | _ =>
              if prefix sep s
              then cur :: split_go sep (option_map pred budget)
                                   (String.length sep - 1) "" s'
              else split_go sep budget 0 (cur ++ String c "") s'
          end
      end
  end.

Definition split (s sep : string) : list string :=
  split_go sep None 0 "" s.

Definition split_max (s sep : string) (maxsplit : nat) : list string :=
  split_go sep (Some maxsplit) 0 "" s.

(** A character occurs in a text. *)
Fixpoint has_char (c : ascii) (s : string) : bool :=
  match s with
  | EmptyString => false
  | String d s' => Ascii.eqb c d || has_char c s'
  end.

(** No character of the text is white space. *)
Fixpoint no_space (s : string) : bool :=
  match s with
  | EmptyString => true
  | String c s' => negb (isspace c) && no_space s'
  end.

End PyStr.

Import PyStr.

(** ** Python values, exceptions *)

Module Py.

(** The outcome of a Python call: a value, or a raised exception carrying
    the text [str(e)] of the exception. *)
Inductive result (A : Type) : Type :=
| Ret (a : A)
| Raise (msg : string).
Arguments Ret {A} a.
Arguments Raise {A} msg.

(** Scalar values as they come out of JSON or a tool call. *)
Inductive Atom : Type :=
| ANone
| ABool (b : bool)
| AInt (z : Z)
| AStr (s : string).

(** [str(v)], the conversion an f-string applies. *)
Definition str_atom (v : Atom) : string :=
  match v with
  | ANone => "None"
  | ABool true => "True"
  | ABool false => "False"
  | AInt z => str_int z
  | AStr s => s
  end.

(** [bool(v)] *)
Definition truthy_atom (v : Atom) : bool :=
  match v with
  | ANone => false
  | ABool b => b
  | AInt z => negb (z =? 0)%Z
  | AStr s => negb (s =? "")
  end.

(** [d.get(key, default)] on a dict given by its items. *)
Fixpoint dict_get {V : Type} (d : list (string * V)) (key : string) : option V :=
  match d with
  | [] => None
  | (k, v) :: rest => if k =? key then Some v else dict_get rest key
  end.

(** [l[i]] *)
Definition index {A : Type} (l : list A) (i : nat) : result A :=
  match nth_error l i with
  | Some a => Ret a
  | None => Raise "list index out of range"
  end.

End Py.

Import Py.

(** ** jenkins_tool.py *)

Module Jenkins.

Inductive Method : Type := GET | POST.

(** What [requests.get] and [requests.post] are called with. *)
Record Request : Type := mkRequest {
  method : Method;
  url : string;
  data : option string;
  headers : list (string * string);
  auth : option (string * string)
}.

(** What they answer.  [json] is the outcome of [response.json()]: the items
    of the decoded object, or the exception raised when the body does not
    decode to an object with scalar fields. *)
Record Response : Type := mkResponse {
  status_code : Z;
  text : string;
  json : result (list (string * Atom))
}.

(** The module's globals and the outside world.  [http] answers a request or
    raises; [b64encode] is [requests.utils.b64encode(..).decode()], which is
    evaluated outside every [try]: the module [requests.utils] of the
    requests package defines no such function, and the call then raises an
    [AttributeError]; [set_order] is the order in which a set of strings is
    iterated. *)
Record Env : Type := mkEnv {
  JENKINS_BASE_URL : string;
  JENKINS_USERNAME : option string;
  JENKINS_API_TOKEN : option string;
  http : Request -> result Response;
  b64encode : string -> result string;
  set_order : list string -> list string
}.

(** A computation reads the environment and yields its outcome together with
    the HTTP requests it issued, oldest first. *)
Definition IO (A : Type) : Type := Env -> result A * list Request.

Definition ret {A} (a : A) : IO A := fun _ => (Ret a, []).

Definition raise {A} (msg : string) : IO A := fun _ => (Raise msg, []).

Definition bind {A B} (m : IO A) (k : A -> IO B) : IO B :=
  fun e =>
    match m e with
    | (Ret a, t1) => let (r, t2) := k a e in (r, t1 ++ t2)%list
    | (Raise msg, t1) => (Raise msg, t1)
    end.

Notation "x <- m ;; k" := (bind m (fun x => k))
  (at level 61, m at next level, right associativity).

(** [try: body except Exception as e: handler(str(e))] *)
Definition try_except {A} (body : IO A) (handler : string -> IO A) : IO A :=
  fun e =>
    match body e with
    | (Ret a, t1) => (Ret a, t1)
    | (Raise msg, t1) => let (r, t2) := handler msg e in (r, t1 ++ t2)%list
    end.

Definition ask : IO Env := fun e => (Ret e, []).

Definition lift {A} (r : result A) : IO A := fun _ => (r, []).

Definition requests_call (r : Request) : IO Response :=
  fun e => (http e r, [r]).

(** [all([JENKINS_USERNAME, JENKINS_API_TOKEN])]: both are set and non-empty.
    The pair is returned when they are. *)
Definition credentials (e : Env) : option (string * string) :=
  match JENKINS_USERNAME e, JENKINS_API_TOKEN e with
  | Some u, Some t =>
      if negb (u =? "") && negb (t =? "") then Some (u, t) else None
  | _, _ => None
  end.

Definition not_configured_long : string :=
  "Jenkins credentials not configured. Please set JENKINS_USERNAME and JENKINS_API_TOKEN.".

Definition not_configured : string := "Jenkins credentials not configured.".

Definition create_jenkins_job (job_name job_config : string) : IO string :=
  e <- ask ;;
  match credentials e with
  | None => ret not_configured_long
  | Some (user, token) =>
      let job_url := JENKINS_BASE_URL e ++ "/createItem?name=" ++ job_name in
      enc <- lift (b64encode e (user ++ ":" ++ token)) ;;
      let hdrs := [("Content-Type", "application/xml");
                   ("Authorization", "Basic " ++ enc)] in
      try_except
        (response <- requests_call (mkRequest POST job_url (Some job_config) hdrs None) ;;
         if (status_code response =? 200)%Z then
           ret ("Jenkins job '" ++ job_name ++ "' created successfully.")
         else if (status_code response =? 400)%Z then
           ret ("Invalid job configuration for '" ++ job_name ++ "'.")
         else
           ret ("Failed to create job '" ++ job_name ++ "'. Status: "
                ++ str_int (status_code response)))
        (fun msg => ret ("Error creating job '" ++ job_name ++ "': " ++ msg))
  end.

Definition trigger_jenkins_job (job_name : string) : IO string :=
  e <- ask ;;
  match credentials e with
  | None => ret not_configured_long
  | Some creds =>
      let job_url := JENKINS_BASE_URL e ++ "/job/" ++ job_name ++ "/build" in
      try_except
        (response <- requests_call (mkRequest POST job_url None [] (Some creds)) ;;
         if (status_code response =? 201)%Z then
           ret ("Jenkins job '" ++ job_name ++ "' triggered successfully.")
         else if (status_code response =? 403)%Z then
           ret "Permission denied. Check your Jenkins credentials and token."
         else if (status_code response =? 404)%Z then
           ret ("Job '" ++ job_name ++ "' not found on Jenkins server.")
         else
           ret ("Failed to trigger Jenkins job '" ++ job_name ++ "'. Status code: "
                ++ str_int (status_code response)))
        (fun msg => ret ("Error triggering job '" ++ job_name ++ "': " ++ msg))
  end.

Definition get_job_status (job_name : string) : IO string :=
  e <- ask ;;
  match credentials e with
  | None => ret not_configured
  | Some creds =>
      let job_url := JENKINS_BASE_URL e ++ "/job/" ++ job_name ++ "/lastBuild/api/json" in
      try_except
        (response <- requests_call (mkRequest GET job_url None [] (Some creds)) ;;
         if (status_code response =? 200)%Z then
           build_info <- lift (json response) ;;
           let result := match dict_get build_info "result" with
                         | Some v => v | None => AStr "IN_PROGRESS" end in
           let number := match dict_get build_info "number" with
                         | Some v => v | None => AStr "N/A" end in
           ret ("Job '" ++ job_name ++ "' build #" ++ str_atom number ++ ": "
                ++ str_atom result)
         else if (status_code response =? 404)%Z then
           ret ("Job '" ++ job_name ++ "' not found or no builds exist.")
         else
           ret ("Failed to get job status. Status code: "
                ++ str_int (status_code response)))
        (fun msg => ret ("Error getting job status: " ++ msg))
  end.

Definition truncation_marker : string := nl ++ "... (truncated)".

Definition get_build_logs (job_name : string) (build_number : option Z) : IO string :=
  e <- ask ;;
  match credentials e with
  | None => ret not_configured
  | Some creds =>
      let build_url :=
        match build_number with
        | None => JENKINS_BASE_URL e ++ "/job/" ++ job_name ++ "/lastBuild/consoleText"
        | Some n => JENKINS_BASE_URL e ++ "/job/" ++ job_name ++ "/" ++ str_int n
                    ++ "/consoleText"
        end in
      try_except
        (response <- requests_call (mkRequest GET build_url None [] (Some creds)) ;;
         if (status_code response =? 200)%Z then
           let logs := text response in
           let logs := if (2000 <? String.length logs)%nat
                       then take 2000 logs ++ truncation_marker else logs in
           ret ("Build logs for '" ++ job_name ++ "':" ++ nl ++ logs)
         else if (status_code response =? 404)%Z then
           ret ("Build logs not found for '" ++ job_name ++ "'.")
         else
           ret ("Failed to get build logs. Status code: "
                ++ str_int (status_code response)))
        (fun msg => ret ("Error getting build logs: " ++ msg))
  end.

(** The category table of [analyze_build_errors], in the order of the dict. *)
Definition error_patterns : list (string * list string) :=
  [ ("Compilation Error", ["error:"; "Error:"; "compilation failed"]);
    ("Dependency Issue", ["ModuleNotFoundError"; "ImportError"; "npm ERR"; "pip install"]);
    ("Permission Error", ["Permission denied"; "access denied"; "EACCES"]);
    ("Network Error", ["Connection refused"; "timeout"; "network error"]);
    ("Build Tool Error", ["maven"; "gradle"; "npm"; "yarn"]);
    ("Test Failure", ["FAILED"; "AssertionError"; "test failed"]) ].

(** The inner loop: is some pattern of the list in the log, letter case
    aside?  The loop stops at the first hit. *)
Fixpoint any_pattern (patterns : list string) (logs : string) : bool :=
  match patterns with
  | [] => false
  | pattern :: rest =>
      if contains (lower pattern) (lower logs) then true
      else any_pattern rest logs
  end.

(** The outer loop over a table: the list [found_errors] it builds. *)
Fixpoint scan (table : list (string * list string)) (logs : string) : list string :=
  match table with
  | [] => []
  | (error_type, patterns) :: rest =>
      if any_pattern patterns logs then error_type :: scan rest logs
      else scan rest logs
  end.

Definition found_errors (logs : string) : list string := scan error_patterns logs.

(** [set(l)] iterated: the distinct elements of [l], in the set's order. *)
Definition py_set (e : Env) (l : list string) : list string :=
  set_order e (nodup string_dec l).

(** The last statement of [analyze_build_errors]: the text returned for the
    log text [logs]. *)
Definition report (e : Env) (job_name logs : string) : string :=
  match found_errors logs with
  | _ :: _ =>
      "Error Analysis for '" ++ job_name ++ "':" ++ nl ++ "Found issues: "
      ++ join ", " (py_set e (found_errors logs)) ++ nl ++ nl ++ "Full logs:" ++ nl ++ logs
  | [] =>
      "No common errors detected in '" ++ job_name ++ "' build logs." ++ nl ++ nl
      ++ "Logs:" ++ nl ++ logs
  end.

(** The log text cut out of the answer of [get_build_logs]. *)
Definition extract_logs (logs_response : string) : result string :=
  if contains "Build logs for" logs_response then
    match index (split logs_response "Build logs for") 1 with
    | Ret part => index (split_max part nl 1) 1
    | Raise msg => Raise msg
    end
  else Ret "".

Definition analyze_build_errors (job_name : string) : IO string :=
  e <- ask ;;
  match credentials e with
  | None => ret not_configured
  | Some _ =>
      logs_response <- get_build_logs job_name None ;;
      if startswith logs_response "Error" then ret logs_response
      else
        logs <- lift (extract_logs logs_response) ;;
        ret (report e job_name logs)
  end.

Definition job_config_template (job_name : string) : string :=
  "<?xml version='1.1' encoding='UTF-8'?>" ++ nl ++
  "<project>" ++ nl ++
  "  <description>Auto-generated job for " ++ job_name ++ "</description>" ++ nl ++
  "  <builders>" ++ nl ++
  "    <hudson.tasks.Shell>" ++ nl ++
  "      <command>echo " ++ dq ++ "Hello from " ++ job_name ++ "!" ++ dq ++ nl ++
  "echo " ++ dq ++ "Build started at $(date)" ++ dq ++ nl ++
  "echo " ++ dq ++ "Build completed successfully" ++ dq ++ "</command>" ++ nl ++
  "    </hudson.tasks.Shell>" ++ nl ++
  "  </builders>" ++ nl ++
  "</project>".

Definition help_text (job_name : string) : string :=
  "Available operations for job '" ++ job_name
  ++ "': trigger, status, logs, analyze, create".

(** The closure [jenkins_operations] that [get_jenkins_tool job_name] wraps
    into a tool. *)
Definition jenkins_operations (job_name operation : string) : IO string :=
  let operation := strip (lower operation) in
  if contains "trigger" operation || contains "build" operation
     || contains "run" operation then
    trigger_jenkins_job job_name
  else if contains "status" operation || contains "check" operation then
    get_job_status job_name
  else if contains "logs" operation || contains "output" operation then
    get_build_logs job_name None
  else if contains "error" operation || contains "analyze" operation
          || contains "debug" operation then
    analyze_build_errors job_name
  else if contains "create" operation then
    create_jenkins_job job_name (job_config_template job_name)
  else
    ret (help_text job_name).

(** *** The router as the specification words it: an ordered list of
    (keywords, handler) pairs tried in sequence on the lower-cased text. *)

Inductive Action : Type := Trigger | Status | Logs | Analyze | Create.

Definition keyword_groups : list (list string * Action) :=
  [ (["trigger"; "build"; "run"], Trigger);
    (["status"; "check"], Status);
    (["logs"; "output"], Logs);
    (["error"; "analyze"; "debug"], Analyze);
    (["create"], Create) ].

Definition group_matches (text : string) (keywords : list string) : bool :=
  existsb (fun k => contains k text) keywords.

Fixpoint first_group (groups : list (list string * Action)) (text : string)
  : option Action :=
  match groups with
  | [] => None
  | (keywords, a) :: rest =>
      if group_matches text keywords then Some a else first_group rest text
  end.

Definition perform (job_name : string) (a : Action) : IO string :=
  match a with
  | Trigger => trigger_jenkins_job job_name
  | Status => get_job_status job_name
  | Logs => get_build_logs job_name None
  | Analyze => analyze_build_errors job_name
  | Create => create_jenkins_job job_name (job_config_template job_name)
  end.

Definition route_spec (job_name operation : string) : IO string :=
  match first_group keyword_groups (lower operation) with
  | Some a => perform job_name a
  | None => ret (help_text job_name)
  end.

(** [check_jenkins_connection]: one request without credentials (its
    time-out of five seconds shows as an exception of the request); the bare
    [except] turns every exception into [False]. *)
Definition check_jenkins_connection : IO bool :=
  e <- ask ;;
  try_except
    (response <- requests_call
                   (mkRequest GET (JENKINS_BASE_URL e ++ "/api/json") None [] None) ;;
     ret (status_code response =? 200)%Z)
    (fun _ => ret false).

(** *** The four operations that issue a remote call, and the status
    mapping as the specification states it: one table for all of them. *)

Inductive RemoteOp : Type := OpCreate | OpTrigger | OpStatus | OpLogs.

Definition run_op (op : RemoteOp) (job_name : string) : IO string :=
  match op with
  | OpCreate => create_jenkins_job job_name (job_config_template job_name)
  | OpTrigger => trigger_jenkins_job job_name
  | OpStatus => get_job_status job_name
  | OpLogs => get_build_logs job_name None
  end.

Definition success_text (op : RemoteOp) (job_name txt : string) : Prop :=
  match op with
  | OpCreate => txt = "Jenkins job '" ++ job_name ++ "' created successfully."
  | OpTrigger => txt = "Jenkins job '" ++ job_name ++ "' triggered successfully."
  | OpStatus => startswith txt ("Job '" ++ job_name ++ "' build #") = true
  | OpLogs => startswith txt ("Build logs for '" ++ job_name ++ "':") = true
  end.

Definition denied_text (txt : string) : Prop :=
  contains "Permission denied" txt = true.

Definition not_found_text (txt : string) : Prop :=
  contains "not found" txt = true.

Definition failure_text (code : Z) (txt : string) : Prop :=
  startswith txt "Failed to" = true /\ endswith txt (str_int code) = true.

Definition uniform_status_mapping : Prop :=
  forall (op : RemoteOp) (e : Env) (job_name : string) (resp : Response),
    credentials e <> None ->
    (forall r, http e r = Ret resp) ->
    (exists build_info, json resp = Ret build_info) ->
    exists txt,
      fst (run_op op job_name e) = Ret txt /\
      let code := status_code resp in
      if ((code =? 200) || (code =? 201))%Z then success_text op job_name txt
      else if (code =? 403)%Z then denied_text txt
      else if (code =? 404)%Z then not_found_text txt
      else failure_text code txt.

(** *** The two examples of the router's priority, the first as stated: a
    text with "status" and "logs" takes the status branch. *)

Definition status_and_logs_take_status : Prop :=
  forall (job_name operation : string),
    contains "status" (lower operation) = true ->
    contains "logs" (lower operation) = true ->
    jenkins_operations job_name operation = get_job_status job_name.

(** *** The analyzer on a long log, as stated: no category is reported when
    the first 2000 characters match none, and the text shown is the
    truncated log. *)

Definition analyzer_shows_truncated_log : Prop :=
  forall (e : Env) (job_name : string) (resp : Response),
    credentials e <> None ->
    (forall r, http e r = Ret resp) ->
    status_code resp = 200%Z ->
    (2000 < String.length (text resp))%nat ->
    found_errors (take 2000 (text resp)) = [] ->
    fst (analyze_build_errors job_name e)
    = Ret ("No common errors detected in '" ++ job_name ++ "' build logs."
           ++ nl ++ nl ++ "Logs:" ++ nl
           ++ take 2000 (text resp) ++ truncation_marker).

(** *** Names for the texts and addresses the operations build *)

Definition status_line (job : string) (build_info : list (string * Atom)) : string :=
  "Job '" ++ job ++ "' build #"
  ++ str_atom (match dict_get build_info "number" with
               | Some v => v | None => AStr "N/A" end)
  ++ ": "
  ++ str_atom (match dict_get build_info "result" with
               | Some v => v | None => AStr "IN_PROGRESS" end).

Definition console_url (e : Env) (job : string) (build_number : option Z) : string :=
  match build_number with
  | None => JENKINS_BASE_URL e ++ "/job/" ++ job ++ "/lastBuild/consoleText"
  | Some n => JENKINS_BASE_URL e ++ "/job/" ++ job ++ "/" ++ str_int n ++ "/consoleText"
  end.

Definition shown_logs (logs : string) : string :=
  if (2000 <? String.length logs)%nat then take 2000 logs ++ truncation_marker
  else logs.

(** A pattern that cannot meet the truncation marker: it has no line break,
    is not empty, and does not occur in the marker's words. *)
Definition clear_of_marker (pattern : string) : bool :=
  negb (has_char (chr 10) (lower pattern))
  && negb (lower pattern =? "")
  && negb (contains (lower pattern) (lower "... (truncated)")).

Definition table_clear_of_marker (table : list (string * list string)) : bool :=
  forallb (fun entry => forallb clear_of_marker (snd entry)) table.

(** *** Sample environments *)

Fixpoint replicate (n : nat) (c : string) : string :=
  match n with
  | O => ""
  | S k => c ++ replicate k c
  end.

Definition demo_response (code : Z) (body : string) : Response :=
  mkResponse code body (Ret [("result", AStr "SUCCESS"); ("number", AInt 7)]).

(** A configured server that answers every request with the same response. *)
Definition no_b64encode : string :=
  "module 'requests.utils' has no attribute 'b64encode'".

Definition demo_env (code : Z) (body : string) : Env :=
  mkEnv "http://localhost:8080" (Some "admin") (Some "s3cr3t")
        (fun _ => Ret (demo_response code body))
        (fun _ => Raise no_b64encode)
        (fun l => rev l).

(** A log of 2030 characters that quotes the words "Build logs for" at its
    start and fails after the first 2000 characters. *)
Definition quoting_log : string :=
  "Build logs for stage one" ++ replicate 2000 "." ++ "FAILED".

(** A short log that quotes the words "Build logs for" in its first line,
    then names a missing module and a failed test. *)
Definition quoting_failing_log : string :=
  "Build logs for stage one" ++ nl
  ++ "ModuleNotFoundError: No module named 'yaml'" ++ nl
  ++ "tests/test_a.py FAILED".

(** A log that names a missing module once and a failed test twice. *)
Definition failing_log : string :=
  "ModuleNotFoundError: No module named 'yaml'" ++ nl
  ++ "tests/test_a.py FAILED" ++ nl ++ "tests/test_b.py FAILED".

(** The same server when no API token is set. *)
Definition bare_env : Env :=
  mkEnv "http://localhost:8080" (Some "admin") None
        (fun _ => Ret (demo_response 200 "ok"))
        (fun _ => Raise no_b64encode)
        (fun l => l).

End Jenkins.

(** ** code_indexer.py *)

Module Indexer.

Definition CHROMA_DIR : string := "chroma_store".

Definition EXTENSIONS : list (string * list string) :=
  [ ("Python", [".py"]);
    ("JavaScript", [".js"; ".jsx"; ".ts"; ".tsx"]);
    ("Java", [".java"]);
    ("Markdown", [".md"]);
    ("Text", [".txt"]);
    ("All", [".py"; ".js"; ".jsx"; ".ts"; ".tsx"; ".java"; ".md"; ".txt";
             ".json"; ".yaml"; ".yml"; ".xml"; ".html"; ".css"]) ].

(** [EXTENSIONS["All"]] *)
Definition EXTENSIONS_All : list string :=
  match dict_get EXTENSIONS "All" with Some l => l | None => [] end.

(** [EXTENSIONS.get(language, EXTENSIONS["All"])] *)
Definition valid_exts_for (language : string) : list string :=
  match dict_get EXTENSIONS language with
  | Some l => l
  | None => EXTENSIONS_All
  end.

(** A [Document] with the three metadata fields the indexer sets. *)
Record Document : Type := mkDocument {
  page_content : string;
  source : string;
  chunk_id : nat;
  language : string
}.

(** A file as [os.walk] meets it: the directory, the name, and the outcome of
    opening and reading it (undecodable bytes already dropped). *)
Record File : Type := mkFile {
  root : string;
  name : string;
  read : result string
}.

(** The two directories the indexer works on: the store ([None] when
    [chroma_store] does not exist) and the extraction directory
    [unzipped]. *)
Record FS : Type := mkFS {
  chroma_store : option (list Document);
  unzipped : option (list File)
}.

(** What an archive holds: no member at all, or members, of which the
    regular files are listed. *)
Inductive Archive : Type :=
| NoMember
| Members (files : list File).

Inductive RmOutcome : Type :=
| Removed
| PermissionError
| OtherError (msg : string).

(** What embedding the documents and writing and persisting the store comes
    to: the store is written, or an exception is raised, with what the
    backend had put on disk by then ([None] when it left no directory); the
    indexer removes nothing of it. *)
Inductive StoreOutcome : Type :=
| Stored
| StoreFailed (msg : string) (remains : option (list Document)).

(** The outside world of one indexing run.  [rmtree_chroma k] is the outcome
    of the [k]-th call (from 0) of [shutil.rmtree] on the store, a failed call
    being taken to leave the store as it was; [extractall] is the outcome of
    opening the archive at a path and extracting it; [walk_order] is the
    order in which [os.walk] meets the files that are under [unzipped];
    [split_text] is the text splitter; [from_documents] is the outcome of
    the storage backend.  Removing [unzipped] succeeds when the directory
    exists, and raises an error of text [rmtree_missing] when it does
    not. *)
Record World : Type := mkWorld {
  rmtree_chroma : nat -> RmOutcome;
  extractall : string -> result Archive;
  rmtree_missing : string;
  walk_order : list File -> list File;
  split_text : string -> list string;
  from_documents : list Document -> StoreOutcome
}.

(** The loop of [force_delete] on the store, [attempt] being the number of
    the next call and [left] the number of rounds still to run. *)
Fixpoint force_delete_loop (w : World) (retries attempt left : nat) (fs : FS)
  : result unit * FS :=
  match left with
  | O => (Raise ("Failed to delete " ++ CHROMA_DIR ++ " after "
                 ++ str_int (Z.of_nat retries) ++ " retries."), fs)
  | S k =>
      match chroma_store fs with
      | None => (Ret tt, fs)
      | Some _ =>
          match rmtree_chroma w attempt with
          | Removed => (Ret tt, mkFS None (unzipped fs))
          | PermissionError => force_delete_loop w retries (S attempt) k fs
          | OtherError msg => (Raise msg, fs)
          end
      end
  end.

Definition force_delete (w : World) (retries : nat) (fs : FS) : result unit * FS :=
  force_delete_loop w retries 0 retries fs.

(** [os.path.join(root, file)] *)
Definition path_join (root file : string) : string := root ++ "/" ++ file.

Definition same_path (f g : File) : bool :=
  (root f =? root g) && (name f =? name g).

(** The tree under [unzipped] after [extractall]: the files of the archive,
    and the files that were there before and that the archive does not
    overwrite, in the order in which the walk will meet them. *)
Definition extracted_tree (w : World) (old : option (list File)) (new : list File)
  : list File :=
  match old with
  | None => walk_order w new
  | Some olds =>
      walk_order w (new ++ filter (fun f => negb (existsb (same_path f) new)) olds)%list
  end.

(** The directory [unzipped] after [extractall]: members are written under
    it, creating it when needed; an archive without member writes nothing. *)
Definition extract_into (w : World) (old : option (list File)) (archive : Archive)
  : option (list File) :=
  match archive with
  | NoMember => old
  | Members files => Some (extracted_tree w old files)
  end.

(** The files [os.walk] meets; a missing directory gives none. *)
Definition walk (dir : option (list File)) : list File :=
  match dir with
  | Some tree => tree
  | None => []
  end.

(** [any(file.endswith(ext) for ext in valid_exts)] *)
Definition has_valid_ext (valid_exts : list string) (file : string) : bool :=
  existsb (fun ext => endswith file ext) valid_exts.

(** The walk: the pairs (content, file path) of the files kept, in order. *)
Fixpoint collect (valid_exts : list string) (files : list File)
  : list (string * string) :=
  match files with
  | [] => []
  | f :: rest =>
      if has_valid_ext valid_exts (name f) then
        match read f with
        | Ret content =>
            if negb (strip content =? "")
            then (content, path_join (root f) (name f)) :: collect valid_exts rest
            else collect valid_exts rest
        | Raise _ => collect valid_exts rest
        end
      else collect valid_exts rest
  end.

(** [enumerate(chunks)] turned into documents, counting from [j]. *)
Fixpoint number_chunks (language file_path : string) (j : nat) (chunks : list string)
  : list Document :=
  match chunks with
  | [] => []
  | chunk :: rest =>
      mkDocument chunk file_path j language
      :: number_chunks language file_path (S j) rest
  end.

Definition chunk_documents (w : World) (language content file_path : string)
  : list Document :=
  number_chunks language file_path 0 (split_text w content).

Fixpoint all_documents (w : World) (language : string) (docs : list (string * string))
  : list Document :=
  match docs with
  | [] => []
  | (content, file_path) :: rest =>
      (chunk_documents w language content file_path
       ++ all_documents w language rest)%list
  end.

Definition no_files_message : string := "No supported code files found for indexing.".

(** The [except] clause at the end of [unzip_and_index]: [unzipped] is
    removed when it exists. *)
Definition on_error (msg : string) (fs : FS) : string * FS :=
  ("Error during indexing: " ++ msg, mkFS (chroma_store fs) None).

Definition unzip_and_index (w : World) (zip_path language : string) (fs : FS)
  : string * FS :=
  match (match chroma_store fs with
         | Some _ => force_delete w 3 fs
         | None => (Ret tt, fs)
         end) with
  | (Raise msg, fs1) => on_error msg fs1
  | (Ret _, fs1) =>
      match extractall w zip_path with
      | Raise msg => on_error msg fs1
      | Ret archive =>
          let fs2 := mkFS (chroma_store fs1) (extract_into w (unzipped fs1) archive) in
          let valid_exts := valid_exts_for language in
          let docs := collect valid_exts (walk (unzipped fs2)) in
          match docs with
          | [] =>
              match unzipped fs2 with
              | Some _ => (no_files_message, mkFS (chroma_store fs2) None)
              | None => on_error (rmtree_missing w) fs2
              end
          | _ :: _ =>
              let documents := all_documents w language docs in
              match from_documents w documents with
              | StoreFailed msg remains => on_error msg (mkFS remains (unzipped fs2))
              | Stored =>
                  ("Indexed " ++ str_int (Z.of_nat (List.length docs))
                   ++ " files and stored "
                   ++ str_int (Z.of_nat (List.length documents))
                   ++ " document chunks.",
                   mkFS (Some documents) None)
              end
          end
      end
  end.

(** A file the walk keeps: its name ends with an allowed extension, it can
    be read, and its content is not blank. *)
Definition eligible (valid_exts : list string) (f : File) : bool :=
  has_valid_ext valid_exts (name f)
  && match read f with
     | Ret content => negb (strip content =? "")
     | Raise _ => false
     end.

(** The content of a file that can be read. *)
Definition content_of (f : File) : string :=
  match read f with
  | Ret content => content
  | Raise _ => ""
  end.

(** The documents made of the files given, file after file. *)
Definition documents_of (w : World) (language : string) (files : list File)
  : list Document :=
  flat_map (fun f => chunk_documents w language (content_of f)
                                     (path_join (root f) (name f))) files.

Definition no_eligible_file (valid_exts : list string) (tree : list File) : bool :=
  forallb (fun f => negb (eligible valid_exts f)) tree.

Definition supported_languages : list string := map fst EXTENSIONS.

(** The "no files" case as stated: the answer is the "no files" text and the
    store on disk is what it was before the call. *)
Definition no_files_keeps_store : Prop :=
  forall (w : World) (zip_path language : string) (fs : FS) (archive : Archive),
    In language supported_languages ->
    extractall w zip_path = Ret archive ->
    no_eligible_file (valid_exts_for language)
                     (walk (extract_into w (unzipped fs) archive)) = true ->
    fst (unzip_and_index w zip_path language fs) = no_files_message
    /\ chroma_store (snd (unzip_and_index w zip_path language fs)) = chroma_store fs.

(** A document with its language tag replaced. *)
Definition retag (language : string) (d : Document) : Document :=
  mkDocument (page_content d) (source d) (chunk_id d) language.

(** Two states of the disk that differ at most in the language tags of the
    stored documents. *)
Definition same_up_to_language (fs1 fs2 : FS) : Prop :=
  unzipped fs1 = unzipped fs2
  /\ option_map (map (retag "")) (chroma_store fs1)
     = option_map (map (retag "")) (chroma_store fs2).

End Indexer.

(** ** The text splitter *)

Module Splitter.

Definition chunk_size : nat := 1000.
Definition chunk_overlap : nat := 100.

(** Modelled from the spec: the splitter [RecursiveCharacterTextSplitter] of
    the package langchain_text_splitters, which [unzip_and_index] configures
    with [chunk_size=1000], [chunk_overlap=100] and [length_function=len] and
    whose code is not part of the sources.  The specification describes a
    length-based splitter, not one driven by syntax: a chunk is a contiguous
    slice of at most 1000 characters that shares 100 characters with the
    chunk before it, the chunks are in order, and concatenating them with the
    overlap trimmed gives the content back.  So a content of at most 1000
    characters is one chunk, and a longer one gives its first 1000 characters
    and then the chunks of what starts 900 characters further. *)
Fixpoint split_text_fuel (fuel : nat) (s : string) : list string :=
  match fuel with
  | O => [s]
  | S k =>
      if (String.length s <=? chunk_size)%nat then [s]
      else take chunk_size s
           :: split_text_fuel k (drop (chunk_size - chunk_overlap) s)
  end.

(** Every round drops 900 characters, so the length of the content bounds
    the number of rounds. *)
Definition split_text (s : string) : list string :=
  split_text_fuel (String.length s) s.

End Splitter.

(** ** agent_runner.py: the retrieval tool adapter *)

Module Adapter.

(** A tool payload: a scalar, or a dict given by its items in insertion
    order. *)
#[warnings="-register-all"]
Inductive PyVal : Type :=
| Atom (a : Atom)
| Dict (items : list (string * PyVal)).

(** [bool(v)] *)
Definition truthy (v : PyVal) : bool :=
  match v with
  | Atom a => truthy_atom a
  | Dict [] => false
  | Dict (_ :: _) => true
  end.

(** The loop over the three keys: the first key that is in the dict with a
    true value gives the result. *)
Fixpoint first_truthy (keys : list string) (d : list (string * PyVal)) : option PyVal :=
  match keys with
  | [] => None
  | key :: rest =>
      match dict_get d key with
      | Some v => if truthy v then Some v else first_truthy rest d
      | None => first_truthy rest d
      end
  end.

Definition adapter_keys : list string := ["query"; "input"; "page_content"].

(** [key in input_data and input_data[key]] *)
Definition usable (d : list (string * PyVal)) (key : string) : bool :=
  match dict_get d key with
  | Some v => truthy v
  | None => false
  end.

(** The value under ["query"] in the dict the adapter returns.  The last
    line, [str(input_data)], is reached by a payload that is not a dict and
    by the empty dict, whose [str] is the two braces. *)
Definition universal_input_adapter (input_data : PyVal) : PyVal :=
  match input_data with
  | Dict d =>
      match first_truthy adapter_keys d with
      | Some v => v
      | None =>
          match d with
          | (_, v) :: _ => v
          | [] => Atom (AStr "{}")
          end
      end
  | Atom a => Atom (AStr (str_atom a))
  end.

End Adapter.

(** ** Sample worlds for the indexer *)

Module Samples.
Import Indexer.

(** A world where deleting the store works at once, the archive holds the
    given files, and the backend accepts every batch. *)
Definition calm_world (files : list File) : World :=
  mkWorld (fun _ => Removed) (fun _ => Ret (Members files))
          "[Errno 2] No such file or directory: 'unzipped'"
          (fun tree => tree) Splitter.split_text (fun _ => Stored).

Definition image_only : list File :=
  [mkFile "unzipped" "logo.png" (Ret "not text")].

Definition small_project : list File :=
  [mkFile "unzipped" "main.py" (Ret "print('hello')");
   mkFile "unzipped/docs" "notes.md" (Ret "# Notes");
   mkFile "unzipped" "empty.txt" (Ret "   ")].

(** A disk that holds a store from an earlier run. *)
Definition indexed_disk : FS :=
  mkFS (Some [mkDocument "x = 1" "unzipped/old.py" 0 "Python"]) None.

End Samples.

(** ** memory_manager.py *)

Module Memory.

(** JSON values as [json.load] returns them and [json.dump] writes them. *)
#[warnings="-register-all"]
Inductive Json : Type :=
| JAtom (a : Atom)
| JList (l : list Json)
| JDict (items : list (string * Json)).

(** The file [agent_memory.json]: absent, holding a JSON value, or holding
    text that [json.load] rejects with the given error. *)
Inductive MemoryFile : Type :=
| Absent
| Holds (v : Json)
| Garbled (msg : string).

(** The record [data]; [now] is [datetime.now().isoformat()], and the prompt
    and the result are any values that JSON can hold. *)
Definition interaction (now : string) (prompt jenkins_result : Json) : Json :=
  JDict [("timestamp", JAtom (AStr now));
         ("prompt", prompt);
         ("jenkins_result", jenkins_result)].

(** [existing.append(data)]: only a list has the method. *)
Definition append_entry (existing data : Json) : result Json :=
  match existing with
  | JList l => Ret (JList (l ++ [data]))
  | JDict _ => Raise "'dict' object has no attribute 'append'"
  | JAtom ANone => Raise "'NoneType' object has no attribute 'append'"
  | JAtom (ABool _) => Raise "'bool' object has no attribute 'append'"
  | JAtom (AInt _) => Raise "'int' object has no attribute 'append'"
  | JAtom (AStr _) => Raise "'str' object has no attribute 'append'"
  end.

Definition log_interaction (now : string) (prompt jenkins_result : Json)
           (file : MemoryFile) : result unit * MemoryFile :=
  let data := interaction now prompt jenkins_result in
  match file with
  | Absent => (Ret tt, Holds (JList [data]))
  | Holds existing =>
      match append_entry existing data with
      | Ret updated => (Ret tt, Holds updated)
      | Raise msg => (Raise msg, file)
      end
  | Garbled msg => (Raise msg, file)
  end.

Definition get_memory (file : MemoryFile) : result Json :=
  match file with
  | Absent => Ret (JList [])
  | Holds v => Ret v
  | Garbled msg => Raise msg
  end.

(** The record a call of [log_interaction] stores. *)
Definition record_of (call : string * Json * Json) : Json :=
  let '(now, prompt, jenkins_result) := call in
  interaction now prompt jenkins_result.

(** A run of calls of [log_interaction], each with its time, prompt and
    result; a call that raises ends the run. *)
Fixpoint log_all (calls : list (string * Json * Json)) (file : MemoryFile)
  : result unit * MemoryFile :=
  match calls with
  | [] => (Ret tt, file)
  | (now, prompt, jenkins_result) :: rest =>
      match log_interaction now prompt jenkins_result file with
      | (Ret _, file') => log_all rest file'
      | (Raise msg, file') => (Raise msg, file')
      end
  end.

End Memory.

(** ** setup.py: the two steps that write the file [.env] *)

Module Setup.

Definition placeholder_key : string := "your_openai_api_key_here".

(** The file that [setup_openai_api_key] writes. *)
Definition openai_template (api_key : string) : string :=
  "# OpenAI API Configuration" ++ nl ++
  "OPENAI_API_KEY=" ++ api_key ++ nl ++
  nl ++
  "# Jenkins Configuration (optional)" ++ nl ++
  "JENKINS_URL=http://localhost:8080" ++ nl ++
  "JENKINS_USERNAME=your_jenkins_username" ++ nl ++
  "JENKINS_API_TOKEN=your_jenkins_api_token" ++ nl.

(** [setup_openai_api_key]: [current_key] is [os.getenv("OPENAI_API_KEY")],
    [answer] the line typed at the prompt, [write] the outcome of opening
    and writing the file, a failure leaving the file as it was.  The result is
    the value returned and the file afterwards. *)
Definition key_configured (current_key : option string) : bool :=
  match current_key with
  | Some k => negb (k =? "") && negb (k =? placeholder_key)
  | None => false
  end.

Definition setup_openai_api_key (current_key : option string) (answer : string)
           (write : string -> result unit) (file : option string)
  : bool * option string :=
  if key_configured current_key then (true, file)
  else
    let api_key := strip answer in
    if api_key =? "" then (false, file)
    else if negb (startswith api_key "sk-") then (false, file)
    else match write (openai_template api_key) with
         | Ret _ => (true, Some (openai_template api_key))
         | Raise _ => (false, file)
         end.

(** The file that [setup_existing_jenkins] writes when there is none. *)
Definition jenkins_template (jenkins_url username api_token : string) : string :=
  "# OpenAI API Configuration" ++ nl ++
  "OPENAI_API_KEY=your_openai_api_key_here" ++ nl ++
  nl ++
  "# Jenkins Configuration" ++ nl ++
  "JENKINS_URL=" ++ jenkins_url ++ nl ++
  "JENKINS_USERNAME=" ++ username ++ nl ++
  "JENKINS_API_TOKEN=" ++ api_token ++ nl.

(** The loop over the lines of the file, with its two variables. *)
Fixpoint update_loop (jenkins_url username api_token : string) (lines : list string)
         (updated_lines : list string) (jenkins_updated : bool)
  : list string * bool :=
  match lines with
  | [] => (updated_lines, jenkins_updated)
  | line :: rest =>
      if startswith line "JENKINS_URL=" then
        update_loop jenkins_url username api_token rest
                    (updated_lines ++ ["JENKINS_URL=" ++ jenkins_url]) true
      else if startswith line "JENKINS_USERNAME=" then
        update_loop jenkins_url username api_token rest
                    (updated_lines ++ ["JENKINS_USERNAME=" ++ username]) true
      else if startswith line "JENKINS_API_TOKEN=" then
        update_loop jenkins_url username api_token rest
                    (updated_lines ++ ["JENKINS_API_TOKEN=" ++ api_token]) true
      else
        update_loop jenkins_url username api_token rest
                    (updated_lines ++ [line]) jenkins_updated
  end.

(** The lines written back: those of the loop, and the three settings at the
    end when the loop updated none. *)
Definition update_lines (jenkins_url username api_token : string) (lines : list string)
  : list string :=
  let (updated_lines, jenkins_updated) :=
    update_loop jenkins_url username api_token lines [] false in
  if jenkins_updated then updated_lines
  else updated_lines ++ ["JENKINS_URL=" ++ jenkins_url;
                         "JENKINS_USERNAME=" ++ username;
                         "JENKINS_API_TOKEN=" ++ api_token].

(** The content written over an existing file. *)
Definition update_env (jenkins_url username api_token content : string) : string :=
  join nl (update_lines jenkins_url username api_token (split content nl)).

(** [setup_existing_jenkins]: [probe url] is the status code that
    [requests.get(url, timeout=5)] gives, or the exception it raises; the
    three answers are the lines typed at the prompts; reading and writing
    the file are taken to succeed.  The result is the value returned and the
    file afterwards. *)
Definition setup_existing_jenkins (probe : string -> result Z)
           (url_answer user_answer token_answer : string) (file : option string)
  : bool * option string :=
  let jenkins_url := strip url_answer in
  if jenkins_url =? "" then (false, file)
  else
    match probe (jenkins_url ++ "/api/json") with
    | Raise _ => (false, file)
    | Ret _ =>
        let username := strip user_answer in
        let api_token := strip token_answer in
        if (username =? "") || (api_token =? "") then (false, file)
        else
          match file with
          | Some content => (true, Some (update_env jenkins_url username api_token content))
          | None => (true, Some (jenkins_template jenkins_url username api_token))
          end
    end.

(** A line of one of the three settings. *)
Definition jenkins_line (line : string) : bool :=
  startswith line "JENKINS_URL=" || startswith line "JENKINS_USERNAME="
  || startswith line "JENKINS_API_TOKEN=".

(** What one round of the loop appends for a line. *)
Definition update_line (jenkins_url username api_token line : string) : string :=
  if startswith line "JENKINS_URL=" then "JENKINS_URL=" ++ jenkins_url
  else if startswith line "JENKINS_USERNAME=" then "JENKINS_USERNAME=" ++ username
  else if startswith line "JENKINS_API_TOKEN=" then "JENKINS_API_TOKEN=" ++ api_token
  else line.

(** The three lines appended when the loop updated none. *)
Definition settings_lines (jenkins_url username api_token : string) : list string :=
  ["JENKINS_URL=" ++ jenkins_url;
   "JENKINS_USERNAME=" ++ username;
   "JENKINS_API_TOKEN=" ++ api_token].

End Setup.

(** * Properties *)

(** ** Facts on the text operations *)

Module PyStrFacts.

Lemma append_empty_r (s : string) : s ++ "" = s.
Proof. induction s as [|c s IH]; simpl; [reflexivity | now rewrite IH]. Qed.

Lemma append_assoc (a b c : string) : (a ++ b) ++ c = a ++ (b ++ c).
Proof. induction a as [|x a IH]; simpl; [reflexivity | now rewrite IH]. Qed.

Lemma length_append (a b : string) :
  String.length (a ++ b) = String.length a + String.length b.
Proof. induction a as [|x a IH]; simpl; [reflexivity | now rewrite IH]. Qed.

Lemma prefix_empty (k : string) : prefix k "" = true -> k = "".
Proof. destruct k; simpl; [reflexivity | discriminate]. Qed.

Lemma prefix_append (k s : string) : prefix k (k ++ s) = true.
Proof.
  induction k as [|c k IH]; simpl; [now destruct s|].
  destruct (ascii_dec c c) as [_|n]; [exact IH | now elim n].
Qed.

(** A text without the character [c] that starts [a ++ c ++ b] ends before
    that [c]. *)
Lemma prefix_before_char (c : ascii) (k : string) :
  has_char c k = false ->
  forall a b, prefix k (a ++ String c b) = prefix k a.
Proof.
  induction k as [|x k IH]; intros Hk a b.
  - now destruct a.
  - simpl in Hk. apply orb_false_iff in Hk as [Hx Hk].
    destruct a as [|y a]; simpl.
    + destruct (ascii_dec x c) as [->|_]; [|reflexivity].
      now rewrite Ascii.eqb_refl in Hx.
    + destruct (ascii_dec x y); [now apply IH | reflexivity].
Qed.

(** An occurrence of such a text in [a ++ c ++ b] lies in [a] or in [b]. *)
Lemma contains_around_char (c : ascii) (k : string) :
  has_char c k = false -> k <> "" ->
  forall a b, contains k (a ++ String c b) = contains k a || contains k b.
Proof.
  intros Hk Hne a b. induction a as [|y a IH].
  - change ("" ++ String c b) with (String c b).
    change (contains k (String c b))
      with (prefix k ("" ++ String c b) || contains k b).
    rewrite (prefix_before_char c k Hk "" b).
    destruct k; [now elim Hne | reflexivity].
  - change (contains k (String y a ++ String c b))
      with (prefix k (String y a ++ String c b) || contains k (a ++ String c b)).
    rewrite (prefix_before_char c k Hk (String y a) b), IH.
    change (contains k (String y a)) with (prefix k (String y a) || contains k a).
    now rewrite orb_assoc.
Qed.

Lemma contains_append_l (k a b : string) :
  contains k a = true -> contains k (a ++ b) = true.
Proof.
  induction a as [|y a IH]; intros H.
  - simpl in H. rewrite orb_false_r in H. apply prefix_empty in H. subst k.
    now destruct b.
  - change (contains k (String y a)) with (prefix k (String y a) || contains k a) in H.
    change (contains k (String y a ++ b))
      with (prefix k (String y (a ++ b)) || contains k (a ++ b)).
    apply orb_true_iff in H as [H|H]; apply orb_true_iff; [left | right; now apply IH].
    clear IH. revert y a H. induction k as [|x k IHk]; intros y a H; [reflexivity|].
    simpl in *. destruct (ascii_dec x y); [|discriminate].
    destruct k as [|x' k']; [now destruct (a ++ b)|].
    destruct a as [|y' a']; [discriminate|]. now apply IHk.
Qed.

(** White space around a text hides no occurrence of a word that has no
    white space in it. *)
Lemma prefix_space (k : string) (c : ascii) (s : string) :
  no_space k = true -> k <> "" -> isspace c = true -> prefix k (String c s) = false.
Proof.
  intros Hk Hne Hc. destruct k as [|x k]; [now elim Hne|].
  simpl in *. destruct (ascii_dec x c) as [->|_]; [|reflexivity].
  now rewrite Hc in Hk.
Qed.

Lemma contains_lstrip (k s : string) :
  no_space k = true -> k <> "" -> contains k (lstrip s) = contains k s.
Proof.
  intros Hk Hne. induction s as [|c s IH]; [reflexivity|].
  simpl lstrip. destruct (isspace c) eqn:Hc; [|reflexivity].
  change (contains k (String c s)) with (prefix k (String c s) || contains k s).
  now rewrite (prefix_space k c s Hk Hne Hc), IH.
Qed.

Lemma prefix_rstrip (k : string) :
  no_space k = true -> forall s, prefix k (rstrip s) = prefix k s.
Proof.
  induction k as [|x k IH]; intros Hk s.
  - destruct (rstrip s); destruct s; reflexivity.
  - simpl in Hk. apply andb_true_iff in Hk as [Hx Hk].
    destruct s as [|c t]; [reflexivity|].
    simpl rstrip. destruct (isspace c && (rstrip t =? "")) eqn:E.
    + apply andb_true_iff in E as [Hc _]. simpl.
      destruct (ascii_dec x c) as [->|_]; [|reflexivity].
      now rewrite Hc in Hx.
    + simpl. destruct (ascii_dec x c); [now apply IH | reflexivity].
Qed.

Lemma contains_rstrip (k s : string) :
  no_space k = true -> k <> "" -> contains k (rstrip s) = contains k s.
Proof.
  intros Hk Hne. induction s as [|c s IH]; [reflexivity|].
  change (contains k (String c s)) with (prefix k (String c s) || contains k s).
  rewrite <- (prefix_rstrip k Hk (String c s)), <- IH.
  simpl rstrip. destruct (isspace c && (rstrip s =? "")) eqn:E.
  - apply andb_true_iff in E as [_ E]. apply String.eqb_eq in E. rewrite E.
    destruct k; [now elim Hne | reflexivity].
  - reflexivity.
Qed.

Lemma contains_strip (k s : string) :
  no_space k = true -> k <> "" -> contains k (strip s) = contains k s.
Proof.
  intros Hk Hne. unfold strip.
  now rewrite contains_rstrip, contains_lstrip.
Qed.

(** [lower] works character by character. *)
Lemma lower_append (a b : string) : lower (a ++ b) = lower a ++ lower b.
Proof. induction a as [|x a IH]; simpl; [reflexivity | now rewrite IH]. Qed.

Lemma prefix_lower (k s : string) :
  prefix k s = true -> prefix (lower k) (lower s) = true.
Proof.
  revert s. induction k as [|x k IH]; intros s H; [now destruct s|].
  destruct s as [|c s]; [discriminate|]. simpl in *.
  destruct (ascii_dec x c) as [->|_]; [|discriminate].
  destruct (ascii_dec (lower_char c) (lower_char c)) as [_|n]; [now apply IH | now elim n].
Qed.

Lemma contains_lower (k s : string) :
  contains k s = true -> contains (lower k) (lower s) = true.
Proof.
  induction s as [|c s IH]; intros H.
  - simpl in H. rewrite orb_false_r in H. apply prefix_empty in H. now subst k.
  - change (contains k (String c s)) with (prefix k (String c s) || contains k s) in H.
    change (contains (lower k) (lower (String c s)))
      with (prefix (lower k) (lower (String c s)) || contains (lower k) (lower s)).
    apply orb_true_iff in H as [H|H]; apply orb_true_iff.
    + left. now apply prefix_lower.
    + right. now apply IH.
Qed.

Lemma length_take (n : nat) (s : string) :
  (n <= String.length s)%nat -> String.length (take n s) = n.
Proof.
  revert s. induction n as [|n IH]; intros s H; [reflexivity|].
  destruct s as [|c s]; simpl in *; [lia|]. rewrite IH; lia.
Qed.

Lemma take_all (n : nat) (s : string) :
  (String.length s <= n)%nat -> take n s = s.
Proof.
  revert s. induction n as [|n IH]; intros s H.
  - destruct s; simpl in *; [reflexivity | lia].
  - destruct s as [|c s]; simpl in *; [reflexivity|]. rewrite IH; [reflexivity | lia].
Qed.

Lemma length_drop (n : nat) (s : string) :
  String.length (drop n s) = String.length s - n.
Proof.
  revert s. induction n as [|n IH]; intros s.
  - simpl. destruct s; simpl; lia.
  - destruct s as [|c s]; simpl; [reflexivity | apply IH].
Qed.

End PyStrFacts.

(** ** The Jenkins operations *)

Module JenkinsProps.
Import Jenkins PyStrFacts.

(** The operations once the credentials are known to be configured: one
    request goes out, and the answer decides the text. *)

Lemma create_configured e job cfg user token enc :
  credentials e = Some (user, token) ->
  b64encode e (user ++ ":" ++ token) = Ret enc ->
  let r := mkRequest POST (JENKINS_BASE_URL e ++ "/createItem?name=" ++ job)
                     (Some cfg)
                     [("Content-Type", "application/xml");
                      ("Authorization", "Basic " ++ enc)] None in
  create_jenkins_job job cfg e
  = (match http e r with
     | Ret response =>
         Ret (if (status_code response =? 200)%Z then
                "Jenkins job '" ++ job ++ "' created successfully."
              else if (status_code response =? 400)%Z then
                "Invalid job configuration for '" ++ job ++ "'."
              else "Failed to create job '" ++ job ++ "'. Status: "
                   ++ str_int (status_code response))
     | Raise msg => Ret ("Error creating job '" ++ job ++ "': " ++ msg)
     end, [r]).
Proof.
  intros Hc Hb r.
  cbv [create_jenkins_job bind ask try_except requests_call ret lift].
  rewrite Hc, Hb. fold r. destruct (http e r) as [response|msg]; [|reflexivity].
  destruct (status_code response =? 200)%Z; [reflexivity|].
  destruct (status_code response =? 400)%Z; reflexivity.
Qed.

Lemma trigger_configured e job creds :
  credentials e = Some creds ->
  let r := mkRequest POST (JENKINS_BASE_URL e ++ "/job/" ++ job ++ "/build")
                     None [] (Some creds) in
  trigger_jenkins_job job e
  = (match http e r with
     | Ret response =>
         Ret (if (status_code response =? 201)%Z then
                "Jenkins job '" ++ job ++ "' triggered successfully."
              else if (status_code response =? 403)%Z then
                "Permission denied. Check your Jenkins credentials and token."
              else if (status_code response =? 404)%Z then
                "Job '" ++ job ++ "' not found on Jenkins server."
              else "Failed to trigger Jenkins job '" ++ job ++ "'. Status code: "
                   ++ str_int (status_code response))
     | Raise msg => Ret ("Error triggering job '" ++ job ++ "': " ++ msg)
     end, [r]).
Proof.
  intros Hc r.
  cbv [trigger_jenkins_job bind ask try_except requests_call ret].
  rewrite Hc. fold r. destruct (http e r) as [response|msg]; [|reflexivity].
  destruct (status_code response =? 201)%Z; [reflexivity|].
  destruct (status_code response =? 403)%Z; [reflexivity|].
  destruct (status_code response =? 404)%Z; reflexivity.
Qed.

Lemma status_configured e job creds :
  credentials e = Some creds ->
  let r := mkRequest GET (JENKINS_BASE_URL e ++ "/job/" ++ job ++ "/lastBuild/api/json")
                     None [] (Some creds) in
  get_job_status job e
  = (match http e r with
     | Ret response =>
         if (status_code response =? 200)%Z then
           match json response with
           | Ret build_info => Ret (status_line job build_info)
           | Raise msg => Ret ("Error getting job status: " ++ msg)
           end
         else if (status_code response =? 404)%Z then
           Ret ("Job '" ++ job ++ "' not found or no builds exist.")
         else Ret ("Failed to get job status. Status code: "
                   ++ str_int (status_code response))
     | Raise msg => Ret ("Error getting job status: " ++ msg)
     end, [r]).
Proof.
  intros Hc r.
  cbv [get_job_status bind ask try_except requests_call ret lift status_line].
  rewrite Hc. fold r. destruct (http e r) as [response|msg]; [|reflexivity].
  destruct (status_code response =? 200)%Z.
  - destruct (json response); reflexivity.
  - destruct (status_code response =? 404)%Z; reflexivity.
Qed.

Lemma logs_configured e job n creds :
  credentials e = Some creds ->
  let r := mkRequest GET (console_url e job n) None [] (Some creds) in
  get_build_logs job n e
  = (match http e r with
     | Ret response =>
         Ret (if (status_code response =? 200)%Z then
                "Build logs for '" ++ job ++ "':" ++ nl ++ shown_logs (text response)
              else if (status_code response =? 404)%Z then
                "Build logs not found for '" ++ job ++ "'."
              else "Failed to get build logs. Status code: "
                   ++ str_int (status_code response))
     | Raise msg => Ret ("Error getting build logs: " ++ msg)
     end, [r]).
Proof.
  intros Hc r.
  cbv [get_build_logs bind ask try_except requests_call ret shown_logs].
  rewrite Hc. fold (console_url e job n). fold r.
  destruct (http e r) as [response|msg]; [|reflexivity].
  destruct (status_code response =? 200)%Z; [reflexivity|].
  destruct (status_code response =? 404)%Z; reflexivity.
Qed.

Lemma credentials_none_iff (e : Env) :
  credentials e = None <->
  (JENKINS_USERNAME e = None \/ JENKINS_USERNAME e = Some ""
   \/ JENKINS_API_TOKEN e = None \/ JENKINS_API_TOKEN e = Some "").
Proof.
  unfold credentials.
  destruct (JENKINS_USERNAME e) as [u|], (JENKINS_API_TOKEN e) as [t|];
    try (split; [intros _ | reflexivity]; tauto).
  destruct (String.eqb_spec u ""), (String.eqb_spec t ""); subst; simpl;
    split; try discriminate; try tauto; try reflexivity.
  intros [H|[H|[H|H]]]; congruence.
Qed.

(** The router tests the stripped text; the eleven keywords hold no white
    space, so the text as lower-cased decides. *)
Lemma router_refines_spec (job_name operation : string) :
  jenkins_operations job_name operation = route_spec job_name operation.
Proof.
  unfold jenkins_operations, route_spec.
  rewrite !contains_strip by (reflexivity || discriminate).
  cbn [first_group keyword_groups group_matches existsb perform].
  set (t := lower operation).
  repeat match goal with
         | |- context [contains ?k t] =>
             destruct (contains k t); cbn [orb]; try reflexivity
         end.
Qed.

(** C2 as stated does not hold for its first example: "check status of
    build logs" holds "status" and "logs", and "build" sends it to the
    trigger branch. *)
Lemma status_and_logs_counterexample : ~ status_and_logs_take_status.
Proof.
  intros H.
  specialize (H "demo" "check status of build logs" eq_refl eq_refl).
  apply (f_equal (fun op => fst (op (demo_env 201 "")))) in H.
  vm_compute in H. discriminate H.
Qed.

(** C2, amended: the router lower-cases the operation text and tries the
    five keyword groups in the fixed order (trigger/build/run, status/check,
    logs/output, error/analyze/debug, create), the first group that matches
    deciding alone, and answers the help text that lists the five operations
    when none matches: it is the ordered first-match table [route_spec].  A
    text with both "status" and "logs" takes the status branch unless it
    also holds "trigger", "build" or "run", and then it takes the trigger
    branch.  A text with both "trigger" and "analyze" takes the trigger
    branch. *)
Theorem router_first_match_wins (job_name operation : string) :
  jenkins_operations job_name operation = route_spec job_name operation
  /\ (first_group keyword_groups (lower operation) = None ->
      jenkins_operations job_name operation
      = ret ("Available operations for job '" ++ job_name
             ++ "': trigger, status, logs, analyze, create"))
  /\ (contains "status" (lower operation) = true ->
      contains "logs" (lower operation) = true ->
      jenkins_operations job_name operation =
        if group_matches (lower operation) ["trigger"; "build"; "run"]
        then trigger_jenkins_job job_name
        else get_job_status job_name)
  /\ (contains "trigger" (lower operation) = true ->
      contains "analyze" (lower operation) = true ->
      jenkins_operations job_name operation = trigger_jenkins_job job_name).
Proof.
  rewrite router_refines_spec. unfold route_spec.
  split; [reflexivity|]. split; [intros ->; reflexivity|].
  cbn [first_group keyword_groups group_matches existsb perform].
  split.
  - intros Hs _. rewrite Hs. cbn [orb].
    destruct (contains "trigger" (lower operation) || (contains "build" (lower operation)
              || (contains "run" (lower operation) || false))); reflexivity.
  - intros Ht _. rewrite Ht. reflexivity.
Qed.

Lemma router_first_match_wins_witness :
  jenkins_operations "demo" "Show STATUS and logs" = get_job_status "demo"
  /\ jenkins_operations "demo" " Trigger, then analyze " = trigger_jenkins_job "demo"
  /\ jenkins_operations "demo" "hello"
     = ret "Available operations for job 'demo': trigger, status, logs, analyze, create"
  /\ jenkins_operations "demo" "check status of build logs" = trigger_jenkins_job "demo".
Proof.
  destruct (router_first_match_wins "demo" "check status of build logs")
    as (_ & _ & Hb & _).
  refine ((fun P => conj (proj1 P) (conj (proj1 (proj2 P))
                      (conj (proj2 (proj2 P)) (Hb eq_refl eq_refl)))) _).
  destruct (router_first_match_wins "demo" "Show STATUS and logs") as (_ & _ & H & _).
  destruct (router_first_match_wins "demo" " Trigger, then analyze ") as (_ & _ & _ & H').
  destruct (router_first_match_wins "demo" "hello") as (_ & H0 & _).
  split; [exact (H eq_refl eq_refl)|].
  split; [exact (H' eq_refl eq_refl) | exact (H0 eq_refl)].
Defined.

(** C5: with the user name or the token not configured, each of the five
    operations answers a "not configured" text and issues no request, and so
    does the router whatever the operation text is (the help text needs no
    request either). *)
Theorem missing_credentials_short_circuit (e : Env) (job_name : string) :
  credentials e = None ->
  trigger_jenkins_job job_name e = (Ret not_configured_long, [])
  /\ get_job_status job_name e = (Ret not_configured, [])
  /\ (forall n, get_build_logs job_name n e = (Ret not_configured, []))
  /\ analyze_build_errors job_name e = (Ret not_configured, [])
  /\ (forall cfg, create_jenkins_job job_name cfg e = (Ret not_configured_long, []))
  /\ (forall operation,
        snd (jenkins_operations job_name operation e) = []
        /\ (first_group keyword_groups (lower operation) <> None ->
            exists msg, fst (jenkins_operations job_name operation e) = Ret msg
                        /\ startswith msg "Jenkins credentials not configured" = true)).
Proof.
  intros Hc.
  assert (Ht : trigger_jenkins_job job_name e = (Ret not_configured_long, []))
    by (cbv [trigger_jenkins_job bind ask ret]; now rewrite Hc).
  assert (Hs : get_job_status job_name e = (Ret not_configured, []))
    by (cbv [get_job_status bind ask ret]; now rewrite Hc).
  assert (Hl : forall n, get_build_logs job_name n e = (Ret not_configured, []))
    by (intros n; cbv [get_build_logs bind ask ret]; now rewrite Hc).
  assert (Ha : analyze_build_errors job_name e = (Ret not_configured, []))
    by (cbv [analyze_build_errors bind ask ret]; now rewrite Hc).
  assert (Hn : forall cfg, create_jenkins_job job_name cfg e = (Ret not_configured_long, []))
    by (intros cfg; cbv [create_jenkins_job bind ask ret]; now rewrite Hc).
  repeat (split; [assumption|]).
  intros operation. rewrite router_refines_spec. unfold route_spec.
  destruct (first_group keyword_groups (lower operation)) as [a|].
  - destruct a; cbn [perform]; rewrite ?Ht, ?Hs, ?Hl, ?Ha, ?Hn;
      (split; [reflexivity | intros _; eexists; split; [reflexivity | reflexivity]]).
  - split; [reflexivity | intros H; now elim H].
Qed.

Lemma missing_credentials_short_circuit_witness :
  trigger_jenkins_job "demo" bare_env = (Ret not_configured_long, [])
  /\ analyze_build_errors "demo" bare_env = (Ret not_configured, [])
  /\ snd (jenkins_operations "demo" "create the job" bare_env) = [].
Proof.
  destruct (missing_credentials_short_circuit bare_env "demo" eq_refl)
    as (Ht & _ & _ & Ha & _ & Hr).
  split; [exact Ht|]. split; [exact Ha|]. exact (proj1 (Hr "create the job")).
Defined.

(** C3 as stated does not hold.  The one-table reading of the status mapping fails: asking for the status
    with the server answering 403 gives the generic failure text, not a
    permission-denied text. *)
Lemma status_mapping_not_uniform : ~ uniform_status_mapping.
Proof.
  intros H.
  destruct (H OpStatus (demo_env 403 "") "demo" (demo_response 403 ""))
    as (txt & Htxt & Hkind).
  - discriminate.
  - reflexivity.
  - eexists; reflexivity.
  - vm_compute in Htxt. injection Htxt as <-. vm_compute in Hkind. discriminate.
Qed.

(** C3, amended: with the credentials configured and the server answering,
    triggering a build, fetching the status and fetching the logs each map
    the remote status by a table of their own.  Trigger: 201 gives the
    success text, 403 the permission-denied text, 404 the not-found text,
    every other status (200 too) the failure text with the code.  Status and
    logs: 200 gives the success text (for the status, the build line when
    the body decodes and the error text of the decoding when it does not),
    404 the not-found text, every other status (201 and 403 too) the failure
    text with the code. *)
Theorem status_mapping_per_operation
        (e : Env) (job_name : string) (creds : string * string) (resp : Response) :
  credentials e = Some creds ->
  (forall r, http e r = Ret resp) ->
  let code := status_code resp in
  fst (trigger_jenkins_job job_name e)
  = Ret (if (code =? 201)%Z then
           "Jenkins job '" ++ job_name ++ "' triggered successfully."
         else if (code =? 403)%Z then
           "Permission denied. Check your Jenkins credentials and token."
         else if (code =? 404)%Z then
           "Job '" ++ job_name ++ "' not found on Jenkins server."
         else "Failed to trigger Jenkins job '" ++ job_name ++ "'. Status code: "
              ++ str_int code)
  /\ fst (get_job_status job_name e)
     = Ret (if (code =? 200)%Z then
              match json resp with
              | Ret build_info =>
                  "Job '" ++ job_name ++ "' build #"
                  ++ str_atom (match dict_get build_info "number" with
                               | Some v => v | None => AStr "N/A" end)
                  ++ ": "
                  ++ str_atom (match dict_get build_info "result" with
                               | Some v => v | None => AStr "IN_PROGRESS" end)
              | Raise msg => "Error getting job status: " ++ msg
              end
            else if (code =? 404)%Z then
              "Job '" ++ job_name ++ "' not found or no builds exist."
            else "Failed to get job status. Status code: " ++ str_int code)
  /\ (forall n,
        fst (get_build_logs job_name n e)
        = Ret (if (code =? 200)%Z then
                 "Build logs for '" ++ job_name ++ "':" ++ nl ++ shown_logs (text resp)
               else if (code =? 404)%Z then
                 "Build logs not found for '" ++ job_name ++ "'."
               else "Failed to get build logs. Status code: " ++ str_int code)).
Proof.
  intros Hc Hh code. repeat split.
  - rewrite (trigger_configured e job_name _ Hc). cbv zeta. rewrite Hh. reflexivity.
  - rewrite (status_configured e job_name _ Hc).
    cbv zeta. rewrite Hh. fold code. cbn [fst]. unfold status_line.
    destruct (code =? 200)%Z; [destruct (json resp); reflexivity|].
    destruct (code =? 404)%Z; reflexivity.
  - intros n. rewrite (logs_configured e job_name n _ Hc). cbv zeta. rewrite Hh.
    reflexivity.
Qed.

Lemma status_mapping_per_operation_witness :
  fst (trigger_jenkins_job "demo" (demo_env 200 ""))
  = Ret "Failed to trigger Jenkins job 'demo'. Status code: 200"
  /\ fst (get_job_status "demo" (demo_env 403 ""))
     = Ret "Failed to get job status. Status code: 403"
  /\ fst (get_job_status "demo" (demo_env 200 "")) = Ret "Job 'demo' build #7: SUCCESS"
  /\ fst (get_build_logs "demo" None (demo_env 403 ""))
     = Ret "Failed to get build logs. Status code: 403".
Proof.
  split; [|split; [|split]].
  - exact (proj1 (status_mapping_per_operation (demo_env 200 "") "demo"
                    ("admin", "s3cr3t") (demo_response 200 "") eq_refl (fun _ => eq_refl))).
  - exact (proj1 (proj2 (status_mapping_per_operation (demo_env 403 "") "demo"
                    ("admin", "s3cr3t") (demo_response 403 "") eq_refl
                    (fun _ => eq_refl)))).
  - exact (proj1 (proj2 (status_mapping_per_operation (demo_env 200 "") "demo"
                    ("admin", "s3cr3t") (demo_response 200 "") eq_refl
                    (fun _ => eq_refl)))).
  - exact (proj2 (proj2 (status_mapping_per_operation (demo_env 403 "") "demo"
                    ("admin", "s3cr3t") (demo_response 403 "") eq_refl
                    (fun _ => eq_refl))) None).
Defined.

(** C4: a console log of more than 2000 characters comes back as its first
    2000 characters followed by the truncation marker and nothing else of the
    log; a log of at most 2000 characters comes back whole, with no marker
    added.  The router sends the operation "logs" to this function.  The
    marker is a line break and the words "... (truncated)". *)
Theorem logs_truncated_at_2000
        (e : Env) (job_name : string) (creds : string * string) (resp : Response) :
  credentials e = Some creds ->
  http e (mkRequest GET (console_url e job_name None) None [] (Some creds)) = Ret resp ->
  status_code resp = 200%Z ->
  jenkins_operations job_name "logs" e = get_build_logs job_name None e
  /\ ((2000 < String.length (text resp))%nat ->
      fst (get_build_logs job_name None e)
      = Ret ("Build logs for '" ++ job_name ++ "':" ++ nl
             ++ take 2000 (text resp) ++ truncation_marker)
      /\ String.length (take 2000 (text resp)) = 2000%nat)
  /\ ((String.length (text resp) <= 2000)%nat ->
      fst (get_build_logs job_name None e)
      = Ret ("Build logs for '" ++ job_name ++ "':" ++ nl ++ text resp))
  /\ truncation_marker = nl ++ "... (truncated)".
Proof.
  intros Hc Hh Hs.
  split; [reflexivity|].
  rewrite (logs_configured e job_name None _ Hc). cbv zeta. rewrite Hh, Hs.
  change (200 =? 200)%Z with true. cbv iota. cbn [fst]. unfold shown_logs.
  split; [|split; [|reflexivity]]; intros Hlen.
  - apply Nat.ltb_lt in Hlen. rewrite Hlen. split; [reflexivity|].
    apply Nat.ltb_lt in Hlen. apply length_take. lia.
  - apply Nat.ltb_ge in Hlen. rewrite Hlen. reflexivity.
Qed.

Lemma logs_truncated_at_2000_witness :
  fst (get_build_logs "demo" None (demo_env 200 (replicate 5000 "x")))
  = Ret ("Build logs for 'demo':" ++ nl ++ replicate 2000 "x" ++ truncation_marker)
  /\ String.length (take 2000 (replicate 5000 "x")) = 2000%nat.
Proof.
  assert (L : (2000 < String.length (text (demo_response 200 (replicate 5000 "x"))))%nat)
    by (apply Nat.ltb_lt; vm_compute; reflexivity).
  destruct (logs_truncated_at_2000 (demo_env 200 (replicate 5000 "x")) "demo"
              ("admin", "s3cr3t") (demo_response 200 (replicate 5000 "x"))
              eq_refl eq_refl eq_refl) as (_ & H & _).
  destruct (H L) as [H1 H2]. split; [|exact H2].
  rewrite H1. vm_compute. reflexivity.
Defined.

End JenkinsProps.

(** ** The error analyzer *)

Module AnalyzerProps.
Import Jenkins PyStrFacts JenkinsProps.

Lemma any_pattern_spec (patterns : list string) (logs : string) :
  any_pattern patterns logs = true <->
  exists pattern, In pattern patterns /\ contains (lower pattern) (lower logs) = true.
Proof.
  induction patterns as [|p rest IH]; simpl.
  - split; [discriminate | intros (? & [] & _)].
  - destruct (contains (lower p) (lower logs)) eqn:E.
    + split; [intros _; exists p; auto | reflexivity].
    + rewrite IH. split.
      * intros (q & Hq & Hc). exists q. auto.
      * intros (q & [->|Hq] & Hc); [congruence | exists q; auto].
Qed.

Lemma scan_In (table : list (string * list string)) (logs error_type : string) :
  In error_type (scan table logs) <->
  exists patterns, In (error_type, patterns) table /\ any_pattern patterns logs = true.
Proof.
  induction table as [|[ty pats] rest IH]; simpl.
  - split; [intros [] | intros (? & [] & _)].
  - destruct (any_pattern pats logs) eqn:E; simpl; rewrite IH; split.
    + intros [<-|(ps & Hin & Hp)]; [exists pats; auto | exists ps; auto].
    + intros (ps & [Heq|Hin] & Hp); [left; congruence | right; exists ps; auto].
    + intros (ps & Hin & Hp). exists ps; auto.
    + intros (ps & [Heq|Hin] & Hp); [congruence | exists ps; auto].
Qed.

Lemma scan_NoDup (table : list (string * list string)) (logs : string) :
  NoDup (map fst table) -> NoDup (scan table logs).
Proof.
  induction table as [|[ty pats] rest IH]; simpl; intros H; [constructor|].
  inversion H as [|? ? Hnot Hrest]; subst.
  destruct (any_pattern pats logs); [|auto].
  constructor; [|auto]. intros Hin. apply Hnot.
  apply scan_In in Hin as (ps & Hin & _).
  change ty with (fst (ty, ps)). now apply in_map.
Qed.

Lemma error_patterns_keys_NoDup : NoDup (map fst error_patterns).
Proof.
  simpl. repeat (constructor; [simpl; intuition discriminate|]). constructor.
Qed.

Lemma error_patterns_functional (error_type : string) (ps qs : list string) :
  In (error_type, ps) error_patterns -> In (error_type, qs) error_patterns -> ps = qs.
Proof.
  simpl. intros Hp Hq.
  repeat (destruct Hp as [Hp|Hp]; [injection Hp as <- <-|]);
    try (now elim Hp);
    repeat (destruct Hq as [Hq|Hq]; [try discriminate Hq; try (injection Hq as <-; reflexivity)|]);
    now elim Hq.
Qed.

(** The loop over the category table, on the text it is given: each pattern
    is looked for with letter case ignored; a category is found exactly when
    one of its patterns occurs, and no category is found twice, however often
    its patterns occur.  The report names the found categories once each, in
    the order of the set. *)
Theorem analyzer_reports_each_category_once (logs : string) :
  NoDup (found_errors logs)
  /\ (forall error_type patterns,
        In (error_type, patterns) error_patterns ->
        (In error_type (found_errors logs) <->
         exists pattern, In pattern patterns
                         /\ contains (lower pattern) (lower logs) = true))
  /\ (forall (e : Env) (job_name : string),
        (forall l, Permutation (set_order e l) l) ->
        found_errors logs <> [] ->
        exists issues,
          Permutation issues (found_errors logs) /\ NoDup issues
          /\ report e job_name logs
             = "Error Analysis for '" ++ job_name ++ "':" ++ nl ++ "Found issues: "
               ++ join ", " issues ++ nl ++ nl ++ "Full logs:" ++ nl ++ logs)
  /\ (contains "ModuleNotFoundError" logs = true ->
      contains "FAILED" logs = true ->
      count_occ string_dec (found_errors logs) "Dependency Issue" = 1%nat
      /\ count_occ string_dec (found_errors logs) "Test Failure" = 1%nat).
Proof.
  assert (Hnd : NoDup (found_errors logs))
    by (apply scan_NoDup, error_patterns_keys_NoDup).
  assert (Hin : forall error_type patterns,
             In (error_type, patterns) error_patterns ->
             (In error_type (found_errors logs) <->
              exists pattern, In pattern patterns
                              /\ contains (lower pattern) (lower logs) = true)).
  { intros ty ps Hty. unfold found_errors. rewrite scan_In. split.
    - intros (qs & Hq & Hany).
      rewrite (error_patterns_functional ty ps qs Hty Hq). now apply any_pattern_spec.
    - intros H. exists ps. split; [assumption | now apply any_pattern_spec]. }
  split; [exact Hnd|]. split; [exact Hin|]. split.
  - intros e job_name Hord Hne.
    exists (py_set e (found_errors logs)).
    assert (Hp : Permutation (py_set e (found_errors logs)) (found_errors logs)).
    { unfold py_set. rewrite (nodup_fixed_point string_dec Hnd). apply Hord. }
    split; [exact Hp|]. split.
    + eapply Permutation_NoDup; [apply Permutation_sym, Hp | exact Hnd].
    + unfold report. destruct (found_errors logs); [now elim Hne | reflexivity].
  - intros Hm Hf.
    assert (one : forall ty, In ty (found_errors logs) ->
                             count_occ string_dec (found_errors logs) ty = 1%nat).
    { intros ty Hty.
      pose proof (proj1 (NoDup_count_occ string_dec (found_errors logs)) Hnd ty).
      pose proof (proj1 (count_occ_In string_dec (found_errors logs) ty) Hty). lia. }
    split; apply one.
    + apply (Hin "Dependency Issue"
                 ["ModuleNotFoundError"; "ImportError"; "npm ERR"; "pip install"]);
        [simpl; auto|].
      exists "ModuleNotFoundError". split; [simpl; auto | now apply contains_lower].
    + apply (Hin "Test Failure" ["FAILED"; "AssertionError"; "test failed"]);
        [simpl; auto 10|].
      exists "FAILED". split; [simpl; auto | now apply contains_lower].
Qed.

Lemma analyzer_reports_each_category_once_witness :
  count_occ string_dec (found_errors failing_log) "Dependency Issue" = 1%nat
  /\ count_occ string_dec (found_errors failing_log) "Test Failure" = 1%nat
  /\ exists issues,
       Permutation issues (found_errors failing_log) /\ NoDup issues
       /\ report (demo_env 200 failing_log) "demo" failing_log
          = "Error Analysis for 'demo':" ++ nl ++ "Found issues: "
            ++ join ", " issues ++ nl ++ nl ++ "Full logs:" ++ nl ++ failing_log.
Proof.
  destruct (analyzer_reports_each_category_once failing_log) as (_ & _ & Hrep & Hex).
  destruct (Hex eq_refl eq_refl) as [Hd Ht].
  split; [exact Hd|]. split; [exact Ht|].
  apply (Hrep (demo_env 200 failing_log) "demo").
  - intros l. apply Permutation_sym, Permutation_rev.
  - vm_compute. discriminate.
Defined.

(** *** Cutting the log out of the answer of [get_build_logs] *)

Lemma has_char_append (c : ascii) (a b : string) :
  has_char c (a ++ b) = has_char c a || has_char c b.
Proof.
  induction a as [|x a IH]; simpl; [reflexivity|]. now rewrite IH, orb_assoc.
Qed.

Lemma contains_prefix_false (k : string) (c : ascii) (s : string) :
  contains k (String c s) = false ->
  prefix k (String c s) = false /\ contains k s = false.
Proof.
  change (contains k (String c s)) with (prefix k (String c s) || contains k s).
  apply orb_false_iff.
Qed.

(** A text without the separator is one piece. *)
Lemma split_go_no_sep (sep : string) (s : string) :
  contains sep s = false ->
  forall cur, split_go sep None 0 cur s = [cur ++ s].
Proof.
  induction s as [|c s IH]; intros H cur.
  - simpl. now rewrite append_empty_r.
  - apply contains_prefix_false in H as [Hp Hc].
    cbn [split_go]. rewrite Hp, (IH Hc), append_assoc. reflexivity.
Qed.

(** With no cut left, the rest of the text goes to the current piece. *)
Lemma split_go_spent (sep : string) (s : string) :
  forall cur, split_go sep (Some 0%nat) 0 cur s = [cur ++ s].
Proof.
  induction s as [|c s IH]; intros cur.
  - simpl. now rewrite append_empty_r.
  - cbn [split_go]. rewrite IH, append_assoc. reflexivity.
Qed.

Lemma split_go_skip (sep : string) (budget : option nat) (x : string) :
  forall cur s,
    split_go sep budget (String.length x) cur (x ++ s) = split_go sep budget 0 cur s.
Proof.
  induction x as [|c x IH]; intros cur s.
  - reflexivity.
  - cbn [String.length append split_go]. apply IH.
Qed.

(** A text that starts with the separator: an empty piece, then the pieces
    of what follows. *)
Lemma split_leading_sep (c : ascii) (sep' s : string) :
  split (String c sep' ++ s) (String c sep')
  = "" :: split_go (String c sep') None 0 "" s.
Proof.
  unfold split. cbn [append]. cbn [split_go].
  change (String c (sep' ++ s)) with (String c sep' ++ s).
  rewrite prefix_append. cbn [option_map].
  replace (String.length (String c sep') - 1)%nat with (String.length sep')
    by (cbn [String.length]; lia).
  now rewrite split_go_skip.
Qed.

(** One cut at the first line break. *)
Lemma split_max_first_char (c : ascii) (a b : string) :
  has_char c a = false ->
  forall cur,
    split_go (String c "") (Some 1%nat) 0 cur (a ++ String c b) = [cur ++ a; b].
Proof.
  induction a as [|y a IH]; intros Ha cur.
  - cbn [append split_go prefix].
    destruct (ascii_dec c c) as [_|n]; [|now elim n].
    replace (prefix "" b) with true by (now destruct b).
    cbn [option_map pred String.length Nat.sub].
    rewrite split_go_spent, append_empty_r. reflexivity.
  - simpl in Ha. apply orb_false_iff in Ha as [Hy Ha].
    cbn [append split_go prefix].
    destruct (ascii_dec c y) as [->|_]; [now rewrite Ascii.eqb_refl in Hy|].
    rewrite (IH Ha), append_assoc. reflexivity.
Qed.

(** The answer for a job name without line break and a shown text, neither
    holding the words "Build logs for", gives the shown text back. *)
Lemma extract_logs_clean (job_name shown : string) :
  has_char (chr 10) job_name = false ->
  contains "Build logs for" job_name = false ->
  contains "Build logs for" shown = false ->
  extract_logs ("Build logs for '" ++ job_name ++ "':" ++ nl ++ shown) = Ret shown.
Proof.
  intros Hnl Hj Hs. unfold extract_logs.
  change ("Build logs for '" ++ job_name ++ "':" ++ nl ++ shown)
    with ("Build logs for" ++ (" " ++ String "'" (job_name ++ "':" ++ nl ++ shown))).
  rewrite (contains_append_l "Build logs for" "Build logs for") by reflexivity.
  rewrite split_leading_sep.
  assert (Hrest : contains "Build logs for"
                    (" " ++ String "'" (job_name ++ "':" ++ nl ++ shown)) = false).
  { rewrite contains_around_char by (reflexivity || discriminate).
    change (job_name ++ "':" ++ nl ++ shown)
      with (job_name ++ String "'" (":" ++ String (chr 10) shown)).
    rewrite contains_around_char by (reflexivity || discriminate).
    rewrite contains_around_char by (reflexivity || discriminate).
    rewrite Hj, Hs. reflexivity. }
  rewrite (split_go_no_sep _ _ Hrest). cbn [index nth_error append].
  replace (String " " (String "'" (job_name ++ String "'" (String ":" (nl ++ shown)))))
    with ((" '" ++ job_name ++ "':") ++ String (chr 10) shown)
    by (cbn [append]; rewrite append_assoc; reflexivity).
  unfold split_max, nl. rewrite split_max_first_char.
  - reflexivity.
  - change (" '" ++ job_name ++ "':") with (" '" ++ (job_name ++ "':")).
    rewrite !has_char_append, Hnl. reflexivity.
Qed.

(** *** The marker adds no category *)

Lemma lower_marker_text (p : string) :
  lower (p ++ truncation_marker) = lower p ++ String (chr 10) (lower "... (truncated)").
Proof. rewrite lower_append. reflexivity. Qed.

Lemma any_pattern_marker (patterns : list string) (p : string) :
  forallb clear_of_marker patterns = true ->
  any_pattern patterns (p ++ truncation_marker) = any_pattern patterns p.
Proof.
  induction patterns as [|q rest IH]; simpl; intros H; [reflexivity|].
  apply andb_true_iff in H as [Hq Hrest].
  unfold clear_of_marker in Hq.
  apply andb_true_iff in Hq as [Hq Hm]. apply andb_true_iff in Hq as [Hc Hne].
  apply negb_true_iff in Hc, Hne, Hm. apply String.eqb_neq in Hne.
  rewrite lower_marker_text, (contains_around_char _ _ Hc Hne), Hm, orb_false_r.
  now rewrite IH.
Qed.

Lemma scan_marker (table : list (string * list string)) (p : string) :
  table_clear_of_marker table = true ->
  scan table (p ++ truncation_marker) = scan table p.
Proof.
  induction table as [|[ty pats] rest IH]; simpl; intros H; [reflexivity|].
  apply andb_true_iff in H as [Hp Hrest].
  now rewrite (any_pattern_marker pats p Hp), (IH Hrest).
Qed.

Lemma found_errors_marker (p : string) :
  found_errors (p ++ truncation_marker) = found_errors p.
Proof. apply scan_marker. reflexivity. Qed.

(** On a log that quotes the words "Build logs for" the text shown is empty,
    not the truncated log. *)
Lemma analyzer_truncated_log_counterexample : ~ analyzer_shows_truncated_log.
Proof.
  intros H.
  specialize (H (demo_env 200 quoting_log) "demo" (demo_response 200 quoting_log)).
  assert (L : (2000 < String.length (text (demo_response 200 quoting_log)))%nat)
    by (apply Nat.ltb_lt; vm_compute; reflexivity).
  assert (F : found_errors (take 2000 (text (demo_response 200 quoting_log))) = [])
    by (vm_compute; reflexivity).
  specialize (H ltac:(discriminate) (fun _ => eq_refl) eq_refl L F).
  assert (E : fst (analyze_build_errors "demo" (demo_env 200 quoting_log))
              = Ret ("No common errors detected in 'demo' build logs."
                     ++ nl ++ nl ++ "Logs:" ++ nl))
    by (vm_compute; reflexivity).
  rewrite E in H. injection H as H.
  apply (f_equal (fun t => (String.length t <? 100)%nat)) in H.
  vm_compute in H. discriminate H.
Qed.

(** C6: the code misses the statement at a log of 91 characters that
    quotes the words "Build logs for" in its first line.  The log holds
    "ModuleNotFoundError" and "FAILED", and the loop over the table finds
    Dependency Issue and Test Failure in it; the log fetch hands the log over
    whole; but the cut at the words "Build logs for" keeps nothing of it, and
    the analyzer answers that no common errors were detected. *)
Theorem analyzer_misses_quoted_failures :
  contains "ModuleNotFoundError" quoting_failing_log = true
  /\ contains "FAILED" quoting_failing_log = true
  /\ In "Dependency Issue" (found_errors quoting_failing_log)
  /\ In "Test Failure" (found_errors quoting_failing_log)
  /\ fst (get_build_logs "demo" None (demo_env 200 quoting_failing_log))
     = Ret ("Build logs for 'demo':" ++ nl ++ quoting_failing_log)
  /\ extract_logs ("Build logs for 'demo':" ++ nl ++ quoting_failing_log) = Ret ""
  /\ fst (analyze_build_errors "demo" (demo_env 200 quoting_failing_log))
     = Ret ("No common errors detected in 'demo' build logs."
            ++ nl ++ nl ++ "Logs:" ++ nl).
Proof.
  repeat split; try (vm_compute; reflexivity); vm_compute; auto.
Qed.

(** C9: the code misses the statement at a log of 2030 characters that
    quotes the words "Build logs for" at its start and fails after the first
    2000 characters.  No category pattern occurs in the first 2000
    characters, and the log fetch answers with these and the marker; but the
    cut at the words "Build logs for" keeps nothing of them: the analyzer
    reports no common errors and shows an empty log, not the truncated
    log. *)
Theorem analyzer_empties_quoting_log :
  (2000 <? String.length quoting_log)%nat = true
  /\ found_errors (take 2000 quoting_log) = []
  /\ fst (get_build_logs "demo" None (demo_env 200 quoting_log))
     = Ret ("Build logs for 'demo':" ++ nl ++ take 2000 quoting_log ++ truncation_marker)
  /\ extract_logs ("Build logs for 'demo':" ++ nl
                   ++ take 2000 quoting_log ++ truncation_marker) = Ret ""
  /\ fst (analyze_build_errors "demo" (demo_env 200 quoting_log))
     = Ret ("No common errors detected in 'demo' build logs."
            ++ nl ++ nl ++ "Logs:" ++ nl).
Proof.
  repeat split; vm_compute; reflexivity.
Qed.

End AnalyzerProps.

(** ** The indexer *)

Module IndexerProps.
Import Indexer Samples PyStrFacts.

Lemma collect_none (valid_exts : list string) (tree : list File) :
  no_eligible_file valid_exts tree = true -> collect valid_exts tree = [].
Proof.
  induction tree as [|f rest IH]; simpl; intros H; [reflexivity|].
  apply andb_true_iff in H as [Hf Hrest]. apply negb_true_iff in Hf.
  unfold eligible in Hf.
  destruct (has_valid_ext valid_exts (name f)); [|now apply IH].
  simpl in Hf. destruct (read f) as [content|msg]; [|now apply IH].
  rewrite Hf. now apply IH.
Qed.

(** A deletion that succeeds leaves no store and does not touch [unzipped]. *)
Lemma force_delete_loop_done (w : World) (retries : nat) (fs : FS) :
  forall left attempt,
    fst (force_delete_loop w retries attempt left fs) = Ret tt ->
    snd (force_delete_loop w retries attempt left fs) = mkFS None (unzipped fs).
Proof.
  induction left as [|k IH]; intros attempt; simpl; [discriminate|].
  destruct (chroma_store fs) eqn:E.
  - destruct (rmtree_chroma w attempt); simpl; [reflexivity | apply IH | discriminate].
  - intros _. simpl. destruct fs; simpl in *. now subst.
Qed.

(** C1 as stated does not hold: the store that was on the sample disk is
    gone after a run over an archive with nothing to index. *)
Lemma no_files_keeps_store_counterexample : ~ no_files_keeps_store.
Proof.
  intros H.
  destruct (H (calm_world image_only) "upload.zip" "Python" indexed_disk
              (Members image_only))
    as [_ Hstore].
  - simpl. auto.
  - reflexivity.
  - reflexivity.
  - vm_compute in Hstore. discriminate Hstore.
Qed.

(** C1, amended: for every language filter, when the store (if there is one)
    can be deleted, the archive can be extracted, the extraction directory
    exists after the extraction (the archive has a member, or the directory
    was there) and the extracted tree holds no eligible non-empty file, the
    call answers the "no files" text and creates no store; a store that was
    on disk before the call has been deleted at the start of the call, so
    that no store exists afterwards, and the extraction directory is
    removed. *)
Theorem no_files_leaves_no_store
        (w : World) (zip_path language : string) (fs : FS)
        (archive : Archive) (tree : list File) :
  fst (force_delete w 3 fs) = Ret tt ->
  extractall w zip_path = Ret archive ->
  extract_into w (unzipped fs) archive = Some tree ->
  no_eligible_file (valid_exts_for language) tree = true ->
  unzip_and_index w zip_path language fs = (no_files_message, mkFS None None).
Proof.
  intros Hdel Hzip Htree Hnone. unfold unzip_and_index.
  assert (Hfs : (match chroma_store fs with
                 | Some _ => force_delete w 3 fs
                 | None => (Ret tt, fs)
                 end) = (Ret tt, mkFS None (unzipped fs))).
  { destruct (chroma_store fs) eqn:E.
    - pose proof (force_delete_loop_done w 3 fs 3 0 Hdel) as Hsnd.
      unfold force_delete in *.
      destruct (force_delete_loop w 3 0 3 fs) as [r fs1]. simpl in *.
      subst. reflexivity.
    - destruct fs; simpl in *. now subst. }
  rewrite Hfs, Hzip. cbn [unzipped chroma_store]. rewrite Htree. cbn [walk].
  rewrite (collect_none _ _ Hnone). reflexivity.
Qed.

Lemma no_files_leaves_no_store_witness :
  unzip_and_index (calm_world image_only) "upload.zip" "Python" indexed_disk
  = (no_files_message, mkFS None None).
Proof.
  exact (no_files_leaves_no_store (calm_world image_only) "upload.zip" "Python"
           indexed_disk (Members image_only) image_only
           eq_refl eq_refl eq_refl eq_refl).
Defined.

Lemma number_chunks_retag (language file_path : string) (chunks : list string) :
  forall j,
    number_chunks language file_path j chunks
    = map (retag language) (number_chunks "All" file_path j chunks).
Proof.
  induction chunks as [|c rest IH]; intros j; simpl; [reflexivity|].
  now rewrite IH.
Qed.

Lemma all_documents_retag (w : World) (language : string) (docs : list (string * string)) :
  all_documents w language docs = map (retag language) (all_documents w "All" docs).
Proof.
  induction docs as [|[content file_path] rest IH]; simpl; [reflexivity|].
  unfold chunk_documents. now rewrite map_app, IH, number_chunks_retag.
Qed.

Lemma retag_retag (l1 l2 : string) (docs : list Document) :
  map (retag l1) (map (retag l2) docs) = map (retag l1) docs.
Proof. rewrite map_map. reflexivity. Qed.

Lemma unknown_language_exts (language : string) :
  ~ In language ["Python"; "JavaScript"; "Java"; "Markdown"; "Text"; "All"] ->
  valid_exts_for language = valid_exts_for "All".
Proof.
  intros H. unfold valid_exts_for. simpl in H.
  cbn [dict_get EXTENSIONS].
  repeat match goal with
         | |- context [String.eqb ?k language] =>
             destruct (String.eqb_spec k language); [exfalso; tauto|]
         end.
  reflexivity.
Qed.

(** C10: a language filter that is none of the six keys of the table is
    resolved to the extensions of "All".  On the same archive and the same
    disk the call answers the same text as with "All" and leaves the same
    disk, the language tags of the stored documents aside: the documents it
    stores are those of "All" tagged with the language given.  The storage
    backend is taken not to look at the tag. *)
Theorem unknown_language_falls_back_to_All
        (w : World) (zip_path language : string) (fs : FS) :
  ~ In language ["Python"; "JavaScript"; "Java"; "Markdown"; "Text"; "All"] ->
  (forall l docs, from_documents w (map (retag l) docs) = from_documents w docs) ->
  valid_exts_for language = EXTENSIONS_All
  /\ fst (unzip_and_index w zip_path language fs)
     = fst (unzip_and_index w zip_path "All" fs)
  /\ same_up_to_language (snd (unzip_and_index w zip_path language fs))
                         (snd (unzip_and_index w zip_path "All" fs))
  /\ (forall documents,
        startswith (fst (unzip_and_index w zip_path "All" fs)) "Indexed" = true ->
        chroma_store (snd (unzip_and_index w zip_path "All" fs)) = Some documents ->
        chroma_store (snd (unzip_and_index w zip_path language fs))
        = Some (map (retag language) documents)).
Proof.
  intros Hlang Hback.
  pose proof (unknown_language_exts language Hlang) as Hexts.
  split; [exact Hexts|].
  unfold unzip_and_index. rewrite Hexts.
  destruct (match chroma_store fs with
            | Some _ => force_delete w 3 fs
            | None => (Ret tt, fs)
            end) as [[[]|msg] fs1];
    [|repeat split; intros documents Hs; discriminate Hs].
  destruct (extractall w zip_path) as [archive|msg];
    [|repeat split; intros documents Hs; discriminate Hs].
  cbv zeta. cbn [unzipped chroma_store].
  destruct (collect (valid_exts_for "All")
                    (walk (extract_into w (unzipped fs1) archive)))
    as [|d docs] eqn:Hdocs;
    [destruct (extract_into w (unzipped fs1) archive);
     repeat split; intros documents Hs; discriminate Hs|].
  rewrite (all_documents_retag w language (d :: docs)), Hback.
  destruct (from_documents w (all_documents w "All" (d :: docs))) as [|msg remains].
  - rewrite length_map. cbn [fst snd].
    split; [reflexivity|]. split.
    + split; [reflexivity|]. cbn [chroma_store option_map]. now rewrite retag_retag.
    + intros documents _ Hd. cbn [chroma_store] in *.
      injection Hd as <-. reflexivity.
  - repeat split. intros documents Hs. discriminate Hs.
Qed.

Lemma unknown_language_falls_back_to_All_witness :
  fst (unzip_and_index (calm_world small_project) "upload.zip" "Rust" indexed_disk)
  = fst (unzip_and_index (calm_world small_project) "upload.zip" "All" indexed_disk)
  /\ same_up_to_language
       (snd (unzip_and_index (calm_world small_project) "upload.zip" "Rust" indexed_disk))
       (snd (unzip_and_index (calm_world small_project) "upload.zip" "All" indexed_disk)).
Proof.
  assert (H : ~ In "Rust" ["Python"; "JavaScript"; "Java"; "Markdown"; "Text"; "All"])
    by (simpl; intuition discriminate).
  destruct (unknown_language_falls_back_to_All (calm_world small_project) "upload.zip"
              "Rust" indexed_disk H (fun _ _ => eq_refl)) as (_ & Hm & Hd & _).
  split; [exact Hm | exact Hd].
Defined.

End IndexerProps.

(** ** The text splitter *)

Module SplitterProps.
Import Splitter PyStrFacts.

(** With fuel for the whole content, the number of chunks [n] is 1 up to
    1000 characters, and beyond that the least [n] with [L - 100 <= 900 n]. *)
Lemma split_text_fuel_count (fuel : nat) :
  forall s,
    (String.length s <= fuel)%nat ->
    let n := List.length (split_text_fuel fuel s) in
    ((String.length s <= 1000)%nat -> n = 1%nat)
    /\ ((1000 < String.length s)%nat ->
        (900 * (n - 1) < String.length s - 100)%nat
        /\ (String.length s - 100 <= 900 * n)%nat).
Proof.
  induction fuel as [|k IH]; intros s Hf; cbn [split_text_fuel].
  - cbn [List.length]. split; [reflexivity | lia].
  - destruct (Nat.leb_spec (String.length s) chunk_size) as [Hle|Hgt].
    + cbn [List.length]. unfold chunk_size in Hle. split; [reflexivity | lia].
    + cbn [List.length].
      specialize (IH (drop (chunk_size - chunk_overlap) s)).
      rewrite length_drop in IH. unfold chunk_size, chunk_overlap in *.
      destruct (IH ltac:(lia)) as [IH1 IH2].
      destruct (Nat.le_gt_cases (String.length s - (1000 - 100)) 1000) as [Hs|Hl].
      * rewrite (IH1 Hs). split; lia.
      * destruct (IH2 Hl) as [Ha Hb]. split; [lia|]. intros _. split; lia.
Qed.

Lemma length_number_chunks (language file_path : string) (chunks : list string) :
  forall j, List.length (Indexer.number_chunks language file_path j chunks)
            = List.length chunks.
Proof.
  induction chunks as [|c rest IH]; intros j; simpl; [reflexivity | now rewrite IH].
Qed.

(** C7: with chunk size 1000 and overlap 100, a content of length [L] gives
    one chunk when [L <= 1000] and [ceil ((L - 100) / 900)] chunks when
    [L > 1000], the ceiling being the least [n] with [L - 100 <= 900 n]; so
    1000 characters give one chunk and 1001 characters give two.  The indexer
    stores one document per chunk. *)
Theorem chunk_count (content : string) :
  let L := String.length content in
  let n := List.length (split_text content) in
  ((L <= 1000)%nat -> n = 1%nat)
  /\ ((1000 < L)%nat ->
      (900 * (n - 1) < L - 100)%nat /\ (L - 100 <= 900 * n)%nat
      /\ n = ((L - 100 + 899) / 900)%nat)
  /\ (L = 1000%nat -> n = 1%nat)
  /\ (L = 1001%nat -> n = 2%nat)
  /\ (forall (w : Indexer.World) (language file_path : string),
        Indexer.split_text w content = split_text content ->
        List.length (Indexer.chunk_documents w language content file_path) = n).
Proof.
  intros L n.
  destruct (split_text_fuel_count (String.length content) content (Nat.le_refl _))
    as [H1 H2].
  fold (split_text content) in H1, H2. fold n in H1, H2. fold L in H1, H2.
  split; [exact H1|]. split; [|split; [|split]].
  - intros HL. destruct (H2 HL) as [Ha Hb]. split; [exact Ha|]. split; [exact Hb|].
    apply (Nat.div_unique (L - 100 + 899) 900 n (L - 100 + 899 - 900 * n)); lia.
  - intros HL. apply H1. lia.
  - intros HL. destruct (H2 ltac:(lia)) as [Ha Hb]. lia.
  - intros w language file_path Hw. unfold Indexer.chunk_documents.
    rewrite length_number_chunks, Hw. reflexivity.
Qed.

Lemma chunk_count_witness :
  List.length (split_text (Jenkins.replicate 1000 "a")) = 1%nat
  /\ List.length (split_text (Jenkins.replicate 1001 "a")) = 2%nat
  /\ List.length (Indexer.chunk_documents
                    (Samples.calm_world []) "Python" (Jenkins.replicate 1001 "a")
                    "unzipped/a.py") = 2%nat.
Proof.
  assert (L0 : String.length (Jenkins.replicate 1000 "a") = 1000%nat)
    by (vm_compute; reflexivity).
  assert (L1 : String.length (Jenkins.replicate 1001 "a") = 1001%nat)
    by (vm_compute; reflexivity).
  destruct (chunk_count (Jenkins.replicate 1000 "a")) as (_ & _ & H0 & _).
  destruct (chunk_count (Jenkins.replicate 1001 "a")) as (_ & _ & _ & H1 & Hd).
  split; [exact (H0 L0)|]. split; [exact (H1 L1)|].
  rewrite (Hd (Samples.calm_world []) "Python" "unzipped/a.py" eq_refl).
  exact (H1 L1).
Defined.

End SplitterProps.

(** ** The retrieval tool adapter *)

Module AdapterProps.
Import Adapter.

(** C8: for a dict payload the keys "query", "input" and "page_content" are
    tried in this order, and the first that is present with a true (for a
    text: non-empty) value gives the query; when none is, a dict that is not
    empty gives its first value, and the empty dict gives its own text; a
    payload that is not a dict gives its text. *)
Theorem adapter_precedence (input_data : PyVal) :
  (forall d v,
      input_data = Dict d ->
      dict_get d "query" = Some v -> truthy v = true ->
      universal_input_adapter input_data = v)
  /\ (forall d v,
        input_data = Dict d ->
        usable d "query" = false ->
        dict_get d "input" = Some v -> truthy v = true ->
        universal_input_adapter input_data = v)
  /\ (forall d v,
        input_data = Dict d ->
        usable d "query" = false -> usable d "input" = false ->
        dict_get d "page_content" = Some v -> truthy v = true ->
        universal_input_adapter input_data = v)
  /\ (forall k v rest,
        input_data = Dict ((k, v) :: rest) ->
        usable ((k, v) :: rest) "query" = false ->
        usable ((k, v) :: rest) "input" = false ->
        usable ((k, v) :: rest) "page_content" = false ->
        universal_input_adapter input_data = v)
  /\ (input_data = Dict [] ->
      universal_input_adapter input_data = Atom (AStr "{}"))
  /\ (forall a,
        input_data = Atom a ->
        universal_input_adapter input_data = Atom (AStr (str_atom a))).
Proof.
  assert (step : forall d key rest,
             usable d key = false ->
             first_truthy (key :: rest) d = first_truthy rest d).
  { intros d key rest H. unfold usable in H. cbn [first_truthy].
    destruct (dict_get d key) as [v|]; [now rewrite H | reflexivity]. }
  assert (hit : forall d key rest v,
             dict_get d key = Some v -> truthy v = true ->
             first_truthy (key :: rest) d = Some v).
  { intros d key rest v Hg Ht. cbn [first_truthy]. now rewrite Hg, Ht. }
  repeat split.
  - intros d v -> Hg Ht. unfold universal_input_adapter, adapter_keys.
    now rewrite (hit d _ _ v Hg Ht).
  - intros d v -> Hq Hg Ht. unfold universal_input_adapter, adapter_keys.
    now rewrite (step d _ _ Hq), (hit d _ _ v Hg Ht).
  - intros d v -> Hq Hi Hg Ht. unfold universal_input_adapter, adapter_keys.
    now rewrite (step d _ _ Hq), (step d _ _ Hi), (hit d _ _ v Hg Ht).
  - intros k v rest -> Hq Hi Hp. unfold universal_input_adapter, adapter_keys.
    now rewrite (step _ _ _ Hq), (step _ _ _ Hi), (step _ _ _ Hp).
  - intros ->. reflexivity.
  - intros a ->. reflexivity.
Qed.

Lemma adapter_precedence_witness :
  universal_input_adapter
    (Dict [("page_content", Atom (AStr "readme")); ("input", Atom (AStr "parser"));
           ("query", Atom (AStr ""))])
  = Atom (AStr "parser")
  /\ universal_input_adapter
       (Dict [("text", Atom (AStr "find main")); ("query", Atom ANone)])
     = Atom (AStr "find main")
  /\ universal_input_adapter (Atom (AInt 42)) = Atom (AStr "42").
Proof.
  pose (d1 := [("page_content", Atom (AStr "readme")); ("input", Atom (AStr "parser"));
               ("query", Atom (AStr ""))]).
  pose (rest := [("query", Atom ANone)]).
  split; [|split].
  - exact (proj1 (proj2 (adapter_precedence (Dict d1)))
                 d1 (Atom (AStr "parser")) eq_refl eq_refl eq_refl eq_refl).
  - exact (proj1 (proj2 (proj2 (proj2
             (adapter_precedence (Dict (("text", Atom (AStr "find main")) :: rest))))))
                 "text" (Atom (AStr "find main")) rest eq_refl eq_refl eq_refl eq_refl).
  - exact (proj2 (proj2 (proj2 (proj2 (proj2 (adapter_precedence (Atom (AInt 42)))))))
                 (AInt 42) eq_refl).
Defined.

End AdapterProps.

(** * Further properties of the code *)

(** ** More on the text operations *)

Module PyStrMore.
Import PyStrFacts AnalyzerProps.

Lemma contains_append_r (k a b : string) :
  contains k b = true -> contains k (a ++ b) = true.
Proof.
  intros H. induction a as [|y a IH]; [exact H|].
  change (contains k (String y a ++ b))
    with (prefix k (String y (a ++ b)) || contains k (a ++ b)).
  rewrite IH. apply orb_true_r.
Qed.

(** A text that lacks the first character of a word lacks the word. *)
Lemma contains_needs_first (c : ascii) (k' s : string) :
  has_char c s = false -> contains (String c k') s = false.
Proof.
  induction s as [|x s IH]; intros H; [reflexivity|].
  simpl in H. apply orb_false_iff in H as [Hx Hs].
  change (contains (String c k') (String x s))
    with (prefix (String c k') (String x s) || contains (String c k') s).
  rewrite (IH Hs), orb_false_r. simpl.
  destruct (ascii_dec c x) as [->|_]; [now rewrite Ascii.eqb_refl in Hx | reflexivity].
Qed.

Lemma str_uint_no_letter (u : Decimal.uint) :
  has_char "B" (NilEmpty.string_of_uint u) = false.
Proof. induction u; simpl; auto. Qed.

(** The decimal text of a number has no letter B. *)
Lemma str_int_no_letter (z : Z) : has_char "B" (str_int z) = false.
Proof.
  unfold str_int. destruct (Z.to_int z) as [u|u]; simpl.
  - destruct u; try reflexivity; apply (str_uint_no_letter (_ u)).
  - destruct u; try reflexivity; apply (str_uint_no_letter (_ u)).
Qed.

Lemma has_char_split (c : ascii) (s : string) :
  has_char c s = true ->
  exists a b, s = a ++ String c b /\ has_char c a = false.
Proof.
  induction s as [|x s IH]; simpl; [discriminate|].
  destruct (Ascii.eqb_spec c x) as [->|Hne]; simpl.
  - intros _. exists "", s. split; reflexivity.
  - intros H. destruct (IH H) as (a & b & -> & Ha).
    exists (String x a), b. split; [reflexivity|]. simpl.
    destruct (Ascii.eqb_spec c x); [contradiction | exact Ha].
Qed.

Lemma split_go_nonempty (sep : string) (s : string) :
  forall budget skip cur, split_go sep budget skip cur s <> [].
Proof.
  induction s as [|c s IH]; intros budget skip cur; cbn [split_go]; [discriminate|].
  destruct skip; [|apply IH].
  destruct budget as [[|n]|]; try apply IH;
    destruct (prefix sep (String c s)); try discriminate; apply IH.
Qed.

(** What has been read of the current piece is a prefix of the first piece. *)
Lemma split_go_cur (sep : string) (s : string) :
  forall budget skip cur,
    split_go sep budget skip cur s
    = match split_go sep budget skip "" s with
      | h :: t => (cur ++ h) :: t
      | [] => []
      end.
Proof.
  induction s as [|c s IH]; intros budget skip cur; cbn [split_go].
  - now rewrite append_empty_r.
  - assert (acc : split_go sep budget 0 (cur ++ String c "") s
                  = match split_go sep budget 0 ("" ++ String c "") s with
                    | h :: t => (cur ++ h) :: t
                    | [] => []
                    end).
    { rewrite (IH budget 0%nat (cur ++ String c "")),
              (IH budget 0%nat ("" ++ String c "")).
      destruct (split_go sep budget 0 "" s); [reflexivity|].
      now rewrite append_assoc. }
    destruct skip; [|apply IH].
    destruct budget as [[|n]|]; try exact acc;
      destruct (prefix sep (String c s)); try exact acc;
      now rewrite append_empty_r.
Qed.

(** Reading on over a stretch that holds no separator and ends with a
    character the separator lacks. *)
Lemma split_go_pass (c : ascii) (sep a b : string) :
  has_char c sep = false -> sep <> "" -> contains sep a = false ->
  forall cur,
    split_go sep None 0 cur (a ++ String c b)
    = split_go sep None 0 ((cur ++ a) ++ String c "") b.
Proof.
  intros Hc Hne. induction a as [|y a IH]; intros Ha cur.
  - cbn [append split_go].
    change (String c b) with ("" ++ String c b).
    rewrite (prefix_before_char c sep Hc "" b).
    destruct sep; [now elim Hne|]. cbn [prefix]. now rewrite append_empty_r.
  - apply contains_prefix_false in Ha as [Hp Ha].
    cbn [append split_go].
    change (String y (a ++ String c b)) with (String y a ++ String c b).
    rewrite (prefix_before_char c sep Hc (String y a) b), Hp.
    rewrite (IH Ha). now rewrite !append_assoc.
Qed.

(** The lines of a text: the part before the first line break, then the
    lines of the rest. *)
Lemma split_first_line (a b : string) :
  has_char (chr 10) a = false ->
  split (a ++ nl ++ b) nl = a :: split b nl.
Proof.
  intros Ha. unfold split, nl. cbn [append].
  assert (H : forall cur, split_go (String (chr 10) "") None 0 cur (a ++ String (chr 10) b)
                          = (cur ++ a) :: split_go (String (chr 10) "") None 0 "" b).
  { clear - Ha. induction a as [|y a IH]; intros cur.
    - cbn [append split_go prefix].
      destruct (ascii_dec (chr 10) (chr 10)) as [_|n]; [|now elim n].
      replace (prefix "" b) with true by (now destruct b).
      cbn [option_map String.length Nat.sub]. now rewrite append_empty_r.
    - simpl in Ha. apply orb_false_iff in Ha as [Hy Ha].
      cbn [append split_go prefix].
      destruct (ascii_dec (chr 10) y) as [E|_];
        [subst y; vm_compute in Hy; discriminate Hy|].
      rewrite (IH Ha), append_assoc. reflexivity. }
  apply H.
Qed.

Lemma split_no_break (a : string) :
  has_char (chr 10) a = false -> split a nl = [a].
Proof.
  intros Ha. unfold split. rewrite split_go_no_sep; [reflexivity|].
  now apply contains_needs_first.
Qed.

(** Every piece of a cut at line breaks is free of line breaks. *)
Lemma split_go_lines (s : string) :
  forall cur,
    has_char (chr 10) cur = false ->
    Forall (fun line => has_char (chr 10) line = false)
           (split_go nl None 0 cur s).
Proof.
  induction s as [|c s IH]; intros cur Hcur; cbn [split_go].
  - constructor; [exact Hcur | constructor].
  - unfold nl at 1. cbn [prefix].
    destruct (ascii_dec (chr 10) c) as [E|Hne].
    + replace (prefix "" s) with true by (now destruct s).
      constructor; [exact Hcur|]. cbn [option_map String.length Nat.sub].
      now apply IH.
    + apply IH. rewrite has_char_append, Hcur. cbn [has_char orb].
      destruct (Ascii.eqb_spec (chr 10) c); [contradiction | reflexivity].
Qed.

(** Joining the lines of a text with line breaks gives the text back. *)
Lemma join_split_go (s : string) :
  forall cur, join nl (split_go nl None 0 cur s) = cur ++ s.
Proof.
  induction s as [|c s IH]; intros cur; cbn [split_go].
  - simpl. now rewrite append_empty_r.
  - unfold nl at 2. cbn [prefix].
    destruct (ascii_dec (chr 10) c) as [E|Hne].
    + replace (prefix "" s) with true by (now destruct s).
      cbn [option_map]. change (String.length nl - 1)%nat with 0%nat.
      pose proof (split_go_nonempty nl s None 0%nat "") as Hn.
      pose proof (IH "") as IH0.
      destruct (split_go nl None 0 "" s) as [|h t]; [now elim Hn|].
      change (join nl (cur :: h :: t)) with (cur ++ nl ++ join nl (h :: t)).
      rewrite IH0. subst c. reflexivity.
    + rewrite IH, append_assoc. reflexivity.
Qed.

Lemma join_split (s : string) : join nl (split s nl) = s.
Proof. unfold split. now rewrite join_split_go. Qed.

Lemma join_app (l1 l2 : list string) :
  l1 <> [] -> l2 <> [] ->
  join nl (l1 ++ l2) = join nl l1 ++ nl ++ join nl l2.
Proof.
  intros H1 H2. induction l1 as [|x l1 IH]; [now elim H1|].
  destruct l1 as [|y l1].
  - destruct l2; [now elim H2 | reflexivity].
  - change (join nl ((x :: y :: l1) ++ l2))
      with (x ++ nl ++ join nl ((y :: l1) ++ l2)).
    rewrite IH by discriminate.
    change (join nl (x :: y :: l1)) with (x ++ nl ++ join nl (y :: l1)).
    now rewrite !append_assoc.
Qed.

(** Cutting a joined list of lines gives the lines back. *)
Lemma split_join (lines : list string) :
  lines <> [] ->
  Forall (fun line => has_char (chr 10) line = false) lines ->
  split (join nl lines) nl = lines.
Proof.
  intros Hne Hall. induction lines as [|x rest IH]; [now elim Hne|].
  inversion Hall as [|? ? Hx Hrest]; subst.
  destruct rest as [|y rest].
  - simpl. now apply split_no_break.
  - change (join nl (x :: y :: rest)) with (x ++ nl ++ join nl (y :: rest)).
    rewrite (split_first_line x _ Hx), IH; [reflexivity | discriminate | exact Hrest].
Qed.

End PyStrMore.

(** ** More on the Jenkins operations *)

Module JenkinsMore.
Import Jenkins PyStrFacts JenkinsProps AnalyzerProps PyStrMore.

Lemma trigger_unconfigured e job :
  credentials e = None -> trigger_jenkins_job job e = (Ret not_configured_long, []).
Proof. intros Hc. cbv [trigger_jenkins_job bind ask ret]. now rewrite Hc. Qed.

Lemma status_unconfigured e job :
  credentials e = None -> get_job_status job e = (Ret not_configured, []).
Proof. intros Hc. cbv [get_job_status bind ask ret]. now rewrite Hc. Qed.

Lemma logs_unconfigured e job n :
  credentials e = None -> get_build_logs job n e = (Ret not_configured, []).
Proof. intros Hc. cbv [get_build_logs bind ask ret]. now rewrite Hc. Qed.

Lemma analyze_unconfigured e job :
  credentials e = None -> analyze_build_errors job e = (Ret not_configured, []).
Proof. intros Hc. cbv [analyze_build_errors bind ask ret]. now rewrite Hc. Qed.

Lemma create_unconfigured e job cfg :
  credentials e = None -> create_jenkins_job job cfg e = (Ret not_configured_long, []).
Proof. intros Hc. cbv [create_jenkins_job bind ask ret]. now rewrite Hc. Qed.

(** The analyzer on top of the log fetch, credentials being configured. *)
Lemma analyze_configured e job creds :
  credentials e = Some creds ->
  analyze_build_errors job e
  = match get_build_logs job None e with
    | (Ret logs_response, t) =>
        if startswith logs_response "Error" then (Ret logs_response, t)
        else match extract_logs logs_response with
             | Ret logs => (Ret (report e job logs), t)
             | Raise msg => (Raise msg, t)
             end
    | (Raise msg, t) => (Raise msg, t)
    end.
Proof.
  intros Hc. cbv [analyze_build_errors bind ask ret lift]. rewrite Hc.
  destruct (get_build_logs job None e) as [[logs_response|msg] t]; [|reflexivity].
  destruct (startswith logs_response "Error"); [now rewrite app_nil_r|].
  destruct (extract_logs logs_response); now rewrite !app_nil_r.
Qed.

(** X1: triggering a build, fetching the status, fetching the logs and
    probing the server never raise: whatever the server answers and whatever
    the request or the decoding of the body raises, the outcome is a value. *)
Theorem remote_calls_never_raise (e : Env) (job_name : string) :
  (exists txt, fst (trigger_jenkins_job job_name e) = Ret txt)
  /\ (exists txt, fst (get_job_status job_name e) = Ret txt)
  /\ (forall n, exists txt, fst (get_build_logs job_name n e) = Ret txt)
  /\ (exists b, fst (check_jenkins_connection e) = Ret b).
Proof.
  destruct (credentials e) as [creds|] eqn:Hc.
  - split; [|split; [|split]].
    + rewrite (trigger_configured e job_name creds Hc). cbv zeta.
      destruct (http e _); eexists; reflexivity.
    + rewrite (status_configured e job_name creds Hc). cbv zeta.
      destruct (http e _) as [response|msg]; [|eexists; reflexivity].
      destruct (status_code response =? 200)%Z.
      * destruct (json response); eexists; reflexivity.
      * destruct (status_code response =? 404)%Z; eexists; reflexivity.
    + intros n. rewrite (logs_configured e job_name n creds Hc). cbv zeta.
      destruct (http e _); eexists; reflexivity.
    + cbv [check_jenkins_connection bind ask try_except requests_call ret].
      destruct (http e _); eexists; reflexivity.
  - split; [|split; [|split]].
    + rewrite (trigger_unconfigured e job_name Hc). eexists; reflexivity.
    + rewrite (status_unconfigured e job_name Hc). eexists; reflexivity.
    + intros n. rewrite (logs_unconfigured e job_name n Hc). eexists; reflexivity.
    + cbv [check_jenkins_connection bind ask try_except requests_call ret].
      destruct (http e _); eexists; reflexivity.
Qed.

Lemma logs_trace e job n :
  (List.length (snd (get_build_logs job n e)) <= 1)%nat.
Proof.
  destruct (credentials e) as [creds|] eqn:Hc.
  - rewrite (logs_configured e job n creds Hc). simpl. lia.
  - rewrite (logs_unconfigured e job n Hc). simpl. lia.
Qed.

Lemma analyze_trace e job :
  snd (analyze_build_errors job e) = snd (get_build_logs job None e).
Proof.
  destruct (credentials e) as [creds|] eqn:Hc.
  - rewrite (analyze_configured e job creds Hc).
    destruct (get_build_logs job None e) as [[logs_response|msg] t]; [|reflexivity].
    destruct (startswith logs_response "Error"); [reflexivity|].
    destruct (extract_logs logs_response); reflexivity.
  - now rewrite (analyze_unconfigured e job Hc), (logs_unconfigured e job None Hc).
Qed.

(** X2: one call of the router issues at most one request, whatever the
    operation text is; the analyzer issues the requests of the log fetch and
    no other. *)
Theorem router_at_most_one_request (e : Env) (job_name operation : string) :
  (List.length (snd (jenkins_operations job_name operation e)) <= 1)%nat
  /\ snd (analyze_build_errors job_name e) = snd (get_build_logs job_name None e).
Proof.
  split; [|apply analyze_trace].
  rewrite router_refines_spec. unfold route_spec.
  destruct (first_group keyword_groups (lower operation)) as [[]|]; cbn [perform].
  - destruct (credentials e) as [creds|] eqn:Hc.
    + rewrite (trigger_configured e job_name creds Hc). simpl. lia.
    + rewrite (trigger_unconfigured e job_name Hc). simpl. lia.
  - destruct (credentials e) as [creds|] eqn:Hc.
    + rewrite (status_configured e job_name creds Hc). simpl. lia.
    + rewrite (status_unconfigured e job_name Hc). simpl. lia.
  - apply logs_trace.
  - rewrite analyze_trace. apply logs_trace.
  - destruct (credentials e) as [[user token]|] eqn:Hc.
    + destruct (b64encode e (user ++ ":" ++ token)) as [enc|msg] eqn:Hb.
      * rewrite (create_configured e job_name _ user token enc Hc Hb). simpl. lia.
      * cbv [create_jenkins_job bind ask lift]. rewrite Hc, Hb. simpl. lia.
    + rewrite (create_unconfigured e job_name _ Hc). simpl. lia.
  - simpl. lia.
Qed.

(** The answers of the log fetch other than the log itself hold no header
    for the analyzer to cut at. *)
Lemma not_found_answer_plain (job : string) :
  contains "Build logs for" job = false ->
  contains "Build logs for" ("Build logs not found for '" ++ job ++ "'.") = false.
Proof.
  intros Hj.
  change ("Build logs not found for '" ++ job ++ "'.")
    with ("Build logs not found for " ++ String "'" (job ++ String "'" ".")).
  rewrite contains_around_char by (reflexivity || discriminate).
  rewrite contains_around_char by (reflexivity || discriminate).
  rewrite Hj. reflexivity.
Qed.

Lemma failed_answer_plain (code : Z) :
  contains "Build logs for" ("Failed to get build logs. Status code: " ++ str_int code)
  = false.
Proof.
  apply contains_needs_first.
  rewrite has_char_append, str_int_no_letter. reflexivity.
Qed.

(** X3: when the log fetch fails, the analyzer does not say so unless the
    request itself raised: an exception of the request comes back as the
    error text of the fetch, but an answer of the server with a status other
    than 200 comes back as "No common errors detected" with no log at all
    (the job name not holding the words "Build logs for"). *)
Theorem analyzer_on_failed_fetch
        (e : Env) (job_name : string) (creds : string * string) :
  credentials e = Some creds ->
  let r := mkRequest GET (console_url e job_name None) None [] (Some creds) in
  (forall msg,
      http e r = Raise msg ->
      fst (analyze_build_errors job_name e) = Ret ("Error getting build logs: " ++ msg))
  /\ (forall resp,
        http e r = Ret resp ->
        status_code resp <> 200%Z ->
        contains "Build logs for" job_name = false ->
        fst (analyze_build_errors job_name e)
        = Ret ("No common errors detected in '" ++ job_name ++ "' build logs."
               ++ nl ++ nl ++ "Logs:" ++ nl)).
Proof.
  intros Hc r. rewrite (analyze_configured e job_name creds Hc).
  rewrite (logs_configured e job_name None creds Hc). cbv zeta. fold r. split.
  - intros msg Hh. rewrite Hh. reflexivity.
  - intros resp Hh Hs Hj. rewrite Hh.
    apply Z.eqb_neq in Hs. rewrite Hs.
    destruct (status_code resp =? 404)%Z.
    + change (startswith ("Build logs not found for '" ++ job_name ++ "'.") "Error")
        with false. cbv iota.
      unfold extract_logs. rewrite (not_found_answer_plain job_name Hj). reflexivity.
    + change (startswith ("Failed to get build logs. Status code: "
                          ++ str_int (status_code resp)) "Error") with false.
      cbv iota. unfold extract_logs. rewrite failed_answer_plain. reflexivity.
Qed.

Lemma analyzer_on_failed_fetch_witness :
  fst (analyze_build_errors "demo" (demo_env 404 ""))
  = Ret ("No common errors detected in 'demo' build logs."
         ++ nl ++ nl ++ "Logs:" ++ nl)
  /\ fst (analyze_build_errors "demo" (demo_env 500 "Internal Server Error"))
     = Ret ("No common errors detected in 'demo' build logs."
            ++ nl ++ nl ++ "Logs:" ++ nl).
Proof.
  split.
  - refine (proj2 (analyzer_on_failed_fetch (demo_env 404 "") "demo"
                     ("admin", "s3cr3t") eq_refl) (demo_response 404 "") eq_refl _ eq_refl).
    discriminate.
  - refine (proj2 (analyzer_on_failed_fetch (demo_env 500 "Internal Server Error") "demo"
                     ("admin", "s3cr3t") eq_refl)
                  (demo_response 500 "Internal Server Error") eq_refl _ eq_refl).
    discriminate.
Defined.

(** The log is cut out of every answer that carries the header, whatever the
    log is, when the job name does not hold the words of the header. *)
Lemma extract_logs_total (job shown : string) :
  contains "Build logs for" job = false ->
  exists logs,
    extract_logs ("Build logs for '" ++ job ++ "':" ++ nl ++ shown) = Ret logs.
Proof.
  intros Hj. unfold extract_logs.
  change ("Build logs for '" ++ job ++ "':" ++ nl ++ shown)
    with ("Build logs for" ++ (" " ++ String "'" (job ++ "':" ++ nl ++ shown))).
  rewrite (contains_append_l "Build logs for" "Build logs for") by reflexivity.
  rewrite split_leading_sep.
  replace (" " ++ String "'" (job ++ "':" ++ nl ++ shown))
    with ((" '" ++ job ++ "':") ++ String (chr 10) shown)
    by (cbn [append]; rewrite append_assoc; reflexivity).
  assert (Hhead : contains "Build logs for" (" '" ++ job ++ "':") = false).
  { change (" '" ++ job ++ "':") with (" " ++ String "'" (job ++ String "'" ":")).
    rewrite contains_around_char by (reflexivity || discriminate).
    rewrite contains_around_char by (reflexivity || discriminate).
    rewrite Hj. reflexivity. }
  rewrite (split_go_pass (chr 10) "Build logs for" _ shown eq_refl
             ltac:(discriminate) Hhead "").
  rewrite split_go_cur.
  pose proof (split_go_nonempty "Build logs for" shown None 0%nat "") as Hn.
  destruct (split_go "Build logs for" None 0 "" shown) as [|h t]; [now elim Hn|].
  cbn [index nth_error].
  set (piece := (("" ++ " '" ++ job ++ "':") ++ String (chr 10) "") ++ h).
  assert (Hnl : has_char (chr 10) piece = true).
  { unfold piece. rewrite !has_char_append. cbn [has_char].
    rewrite Ascii.eqb_refl. cbn [orb]. now rewrite !orb_true_r. }
  destruct (has_char_split (chr 10) piece Hnl) as (a & b & -> & Ha).
  exists b. unfold split_max, nl. now rewrite split_max_first_char.
Qed.

(** X4: the analyzer raises for no job name that is free of the words
    "Build logs for", whatever the server does. *)
Theorem analyzer_never_raises (e : Env) (job_name : string) :
  contains "Build logs for" job_name = false ->
  exists txt, fst (analyze_build_errors job_name e) = Ret txt.
Proof.
  intros Hj. destruct (credentials e) as [creds|] eqn:Hc.
  - rewrite (analyze_configured e job_name creds Hc).
    rewrite (logs_configured e job_name None creds Hc). cbv zeta.
    destruct (http e _) as [resp|msg]; [|eexists; reflexivity].
    destruct (status_code resp =? 200)%Z.
    + change (startswith ("Build logs for '" ++ job_name ++ "':" ++ nl
                          ++ shown_logs (text resp)) "Error") with false. cbv iota.
      destruct (extract_logs_total job_name (shown_logs (text resp)) Hj) as [logs ->].
      eexists; reflexivity.
    + destruct (status_code resp =? 404)%Z.
      * change (startswith ("Build logs not found for '" ++ job_name ++ "'.") "Error")
          with false. cbv iota.
        unfold extract_logs. rewrite (not_found_answer_plain job_name Hj).
        eexists; reflexivity.
      * change (startswith ("Failed to get build logs. Status code: "
                            ++ str_int (status_code resp)) "Error") with false.
        cbv iota. unfold extract_logs. rewrite failed_answer_plain.
        eexists; reflexivity.
  - rewrite (analyze_unconfigured e job_name Hc). eexists; reflexivity.
Qed.

Lemma analyzer_never_raises_witness :
  exists txt, fst (analyze_build_errors "demo" (demo_env 200 quoting_log)) = Ret txt.
Proof.
  exact (analyzer_never_raises (demo_env 200 quoting_log) "demo" eq_refl).
Defined.

Lemma length_shown_logs (logs : string) :
  (String.length (shown_logs logs) <= 2016)%nat.
Proof.
  unfold shown_logs. destruct (Nat.ltb_spec 2000 (String.length logs)) as [H|H].
  - rewrite length_append, length_take by lia.
    change (String.length truncation_marker) with 16%nat. lia.
  - lia.
Qed.

(** X5: the answer of a successful log fetch is bounded: it is at most 2035
    characters longer than the job name, however long the console log is. *)
Theorem log_answer_bounded
        (e : Env) (job_name : string) (n : option Z)
        (creds : string * string) (resp : Response) :
  credentials e = Some creds ->
  http e (mkRequest GET (console_url e job_name n) None [] (Some creds)) = Ret resp ->
  status_code resp = 200%Z ->
  exists txt,
    fst (get_build_logs job_name n e) = Ret txt
    /\ (String.length txt <= String.length job_name + 2035)%nat.
Proof.
  intros Hc Hh Hs. rewrite (logs_configured e job_name n creds Hc). cbv zeta.
  rewrite Hh, Hs. change (200 =? 200)%Z with true. cbv iota.
  eexists. split; [reflexivity|].
  change ("Build logs for '" ++ job_name ++ "':" ++ nl ++ shown_logs (text resp))
    with ("Build logs for '" ++ (job_name ++ ("':" ++ nl) ++ shown_logs (text resp))).
  rewrite !length_append.
  pose proof (length_shown_logs (text resp)).
  change (String.length "Build logs for '") with 16%nat.
  change (String.length "':") with 2%nat.
  change (String.length nl) with 1%nat. lia.
Qed.

Lemma log_answer_bounded_witness :
  exists txt,
    fst (get_build_logs "demo" None (demo_env 200 (replicate 5000 "x"))) = Ret txt
    /\ (String.length txt <= String.length "demo" + 2035)%nat.
Proof.
  exact (log_answer_bounded (demo_env 200 (replicate 5000 "x")) "demo" None
           ("admin", "s3cr3t") (demo_response 200 (replicate 5000 "x"))
           eq_refl eq_refl eq_refl).
Defined.

(** X20: [create_jenkins_job] builds its authorization header before the
    [try]: when [requests.utils.b64encode] raises, as it does for want of
    such a function in the requests package, the call raises that exception
    and issues no request, and so does the router for every text that it
    sends to the create branch. *)
Theorem create_raises_before_request
        (e : Env) (job_name user token msg : string) :
  credentials e = Some (user, token) ->
  b64encode e (user ++ ":" ++ token) = Raise msg ->
  (forall job_config, create_jenkins_job job_name job_config e = (Raise msg, []))
  /\ (forall operation,
        first_group keyword_groups (lower operation) = Some Create ->
        jenkins_operations job_name operation e = (Raise msg, [])).
Proof.
  intros Hc Hb.
  assert (H : forall job_config, create_jenkins_job job_name job_config e = (Raise msg, []))
    by (intros cfg; cbv [create_jenkins_job bind ask lift]; now rewrite Hc, Hb).
  split; [exact H|]. intros operation Hop.
  rewrite router_refines_spec. unfold route_spec. rewrite Hop. apply H.
Qed.

Lemma create_raises_before_request_witness :
  jenkins_operations "demo" "create the job" (demo_env 200 "")
  = (Raise no_b64encode, []).
Proof.
  exact (proj2 (create_raises_before_request (demo_env 200 "") "demo" "admin" "s3cr3t"
                  no_b64encode eq_refl eq_refl) "create the job" eq_refl).
Defined.

(** X21: for a job name without line break and without the words "Build
    logs for", and a fetched log whose part handed over (the whole log, or
    its first 2000 characters when it is longer) is free of these words too,
    the analyzer reports the categories that have a pattern in that part,
    letter case ignored, each once and in the order of the set, and no
    other; what lies beyond the first 2000 characters is not looked at; the
    text shown after the report is the answer of the fetch (with the marker
    when the log was cut). *)
Theorem analyzer_reports_fetched_text
        (e : Env) (job_name : string) (creds : string * string) (resp : Response) :
  credentials e = Some creds ->
  http e (mkRequest GET (console_url e job_name None) None [] (Some creds)) = Ret resp ->
  status_code resp = 200%Z ->
  has_char (chr 10) job_name = false ->
  contains "Build logs for" job_name = false ->
  (forall l, Permutation (set_order e l) l) ->
  let seen := if (2000 <? String.length (text resp))%nat
              then take 2000 (text resp) else text resp in
  contains "Build logs for" seen = false ->
  (forall error_type patterns,
      In (error_type, patterns) error_patterns ->
      (In error_type (found_errors seen) <->
       exists pattern, In pattern patterns
                       /\ contains (lower pattern) (lower seen) = true))
  /\ (found_errors seen = [] ->
      fst (analyze_build_errors job_name e)
      = Ret ("No common errors detected in '" ++ job_name ++ "' build logs."
             ++ nl ++ nl ++ "Logs:" ++ nl ++ shown_logs (text resp)))
  /\ (found_errors seen <> [] ->
      exists issues,
        Permutation issues (found_errors seen) /\ NoDup issues
        /\ fst (analyze_build_errors job_name e)
           = Ret ("Error Analysis for '" ++ job_name ++ "':" ++ nl ++ "Found issues: "
                  ++ join ", " issues ++ nl ++ nl ++ "Full logs:" ++ nl
                  ++ shown_logs (text resp))).
Proof.
  intros Hc Hh Hs Hnl Hj Hord seen Hseen.
  assert (Hshown : contains "Build logs for" (shown_logs (text resp)) = false).
  { unfold shown_logs. unfold seen in Hseen.
    destruct (2000 <? String.length (text resp))%nat; [|exact Hseen].
    unfold truncation_marker, nl. cbn [append].
    rewrite contains_around_char by (reflexivity || discriminate).
    rewrite Hseen. reflexivity. }
  assert (Hfound : found_errors (shown_logs (text resp)) = found_errors seen).
  { unfold shown_logs, seen.
    destruct (2000 <? String.length (text resp))%nat; [|reflexivity].
    apply found_errors_marker. }
  assert (Hrun : fst (analyze_build_errors job_name e)
                 = Ret (report e job_name (shown_logs (text resp)))).
  { rewrite (analyze_configured e job_name creds Hc).
    rewrite (logs_configured e job_name None creds Hc). cbv zeta. rewrite Hh, Hs.
    change (200 =? 200)%Z with true. cbv iota.
    change (startswith ("Build logs for '" ++ job_name ++ "':" ++ nl
                        ++ shown_logs (text resp)) "Error") with false. cbv iota.
    now rewrite (extract_logs_clean job_name _ Hnl Hj Hshown). }
  destruct (analyzer_reports_each_category_once seen) as (_ & Hin & _).
  destruct (analyzer_reports_each_category_once (shown_logs (text resp)))
    as (_ & _ & Hrep & _).
  split; [exact Hin|]. split.
  - intros Hnone. rewrite Hrun. unfold report. rewrite Hfound, Hnone. reflexivity.
  - intros Hsome. rewrite Hrun.
    destruct (Hrep e job_name Hord) as (issues & Hp & Hnd & Heq);
      [now rewrite Hfound|].
    exists issues. rewrite <- Hfound. split; [exact Hp|]. split; [exact Hnd|].
    now rewrite Heq.
Qed.

Lemma analyzer_reports_fetched_text_witness :
  exists issues,
    Permutation issues ["Compilation Error"; "Dependency Issue"; "Test Failure"]
    /\ NoDup issues
    /\ fst (analyze_build_errors "demo" (demo_env 200 failing_log))
       = Ret ("Error Analysis for 'demo':" ++ nl ++ "Found issues: "
              ++ join ", " issues ++ nl ++ nl ++ "Full logs:" ++ nl ++ failing_log).
Proof.
  refine (proj2 (proj2 (analyzer_reports_fetched_text (demo_env 200 failing_log) "demo"
                          ("admin", "s3cr3t") (demo_response 200 failing_log)
                          eq_refl eq_refl eq_refl eq_refl eq_refl _ eq_refl)) _).
  - intros l. apply Permutation_sym, Permutation_rev.
  - vm_compute. discriminate.
Defined.

End JenkinsMore.

(** ** More on the indexer *)

Module IndexerMore.
Import Indexer Samples PyStrFacts IndexerProps.

Lemma force_delete_loop_failed (w : World) (retries : nat) (fs : FS) :
  forall left attempt msg,
    fst (force_delete_loop w retries attempt left fs) = Raise msg ->
    snd (force_delete_loop w retries attempt left fs) = fs.
Proof.
  induction left as [|k IH]; intros attempt msg; simpl; [reflexivity|].
  destruct (chroma_store fs); [|discriminate].
  destruct (rmtree_chroma w attempt); simpl; [discriminate | apply IH | reflexivity].
Qed.

Lemma force_delete_loop_spec (w : World) (retries : nat) (fs : FS) :
  forall left attempt,
    fst (force_delete_loop w retries attempt left fs) = Ret tt <->
    (0 < left)%nat
    /\ (chroma_store fs = None
        \/ exists k, (k < left)%nat
                     /\ rmtree_chroma w (attempt + k) = Removed
                     /\ forall j, (j < k)%nat ->
                                  rmtree_chroma w (attempt + j) = PermissionError).
Proof.
  induction left as [|n IH]; intros attempt; simpl.
  - split; [discriminate | intros [H _]; lia].
  - destruct (chroma_store fs) as [docs|] eqn:E.
    + destruct (rmtree_chroma w attempt) eqn:R; simpl.
      * split; [intros _ | reflexivity]. split; [lia|]. right. exists 0%nat.
        rewrite Nat.add_0_r. split; [lia|]. split; [exact R | intros j Hj; lia].
      * rewrite IH. split.
        -- intros [Hn [Hnone|(k & Hk & Hr & Hall)]]; [discriminate|].
           split; [lia|]. right. exists (S k). split; [lia|].
           rewrite Nat.add_succ_r. split; [exact Hr|].
           intros [|j] Hj; [now rewrite Nat.add_0_r|].
           rewrite Nat.add_succ_r. apply Hall. lia.
        -- intros [_ [Hnone|(k & Hk & Hr & Hall)]]; [discriminate|].
           destruct k as [|k]; [rewrite Nat.add_0_r in Hr; congruence|].
           split; [lia|]. right. exists k. split; [lia|].
           rewrite Nat.add_succ_r in Hr. split; [exact Hr|].
           intros j Hj. specialize (Hall (S j) ltac:(lia)).
           now rewrite Nat.add_succ_r in Hall.
      * split; [discriminate|]. intros [_ [Hnone|(k & Hk & Hr & Hall)]]; [discriminate|].
        destruct k as [|k]; [rewrite Nat.add_0_r in Hr; congruence|].
        specialize (Hall 0%nat ltac:(lia)). rewrite Nat.add_0_r in Hall. congruence.
    + split; [intros _ | reflexivity]. split; [lia | now left].
Qed.

(** X6: [force_delete] with [retries] rounds succeeds exactly when there is
    a round at all and either no store exists or one of the first [retries]
    removals succeeds after nothing but permission errors; a success leaves
    no store, a failure leaves the disk as it was.  With no round it raises
    even when there is nothing to delete. *)
Theorem force_delete_outcome (w : World) (retries : nat) (fs : FS) :
  (fst (force_delete w retries fs) = Ret tt <->
   (0 < retries)%nat
   /\ (chroma_store fs = None
       \/ exists k, (k < retries)%nat
                    /\ rmtree_chroma w k = Removed
                    /\ forall j, (j < k)%nat -> rmtree_chroma w j = PermissionError))
  /\ (fst (force_delete w retries fs) = Ret tt ->
      snd (force_delete w retries fs) = mkFS None (unzipped fs))
  /\ (forall msg, fst (force_delete w retries fs) = Raise msg ->
                  snd (force_delete w retries fs) = fs).
Proof.
  unfold force_delete. split; [|split].
  - apply (force_delete_loop_spec w retries fs retries 0).
  - apply force_delete_loop_done.
  - apply force_delete_loop_failed.
Qed.

Lemma force_delete_outcome_witness :
  fst (force_delete (mkWorld (fun k => if (k <? 2)%nat then PermissionError else Removed)
                             (fun _ => Ret NoMember) "" (fun tree => tree)
                             Splitter.split_text (fun _ => Stored))
                    3 indexed_disk) = Ret tt
  /\ (exists msg, fst (force_delete (calm_world []) 0 (mkFS None None)) = Raise msg).
Proof.
  split.
  - apply (proj1 (force_delete_outcome _ 3 indexed_disk)).
    split; [lia|]. right. exists 2%nat. split; [lia|]. split; [reflexivity|].
    intros [|[|j]] Hj; [reflexivity | reflexivity | lia].
  - eexists. reflexivity.
Defined.

(** The first step of [unzip_and_index]: the store is gone, or the deletion
    raised and nothing changed. *)
Lemma delete_phase (w : World) (fs : FS) :
  (match chroma_store fs with
   | Some _ => force_delete w 3 fs
   | None => (Ret tt, fs)
   end) = (Ret tt, mkFS None (unzipped fs))
  \/ exists msg,
       (match chroma_store fs with
        | Some _ => force_delete w 3 fs
        | None => (Ret tt, fs)
        end) = (Raise msg, fs)
       /\ fst (force_delete w 3 fs) = Raise msg.
Proof.
  destruct (chroma_store fs) as [docs|] eqn:E.
  - pose proof (force_delete_loop_done w 3 fs 3 0) as Hd.
    pose proof (force_delete_loop_failed w 3 fs 3 0) as Hf.
    unfold force_delete.
    destruct (force_delete_loop w 3 0 3 fs) as [[[]|msg] fs1]; simpl in *.
    + left. now rewrite Hd.
    + right. exists msg. now rewrite (Hf msg).
  - left. destruct fs; simpl in *. now subst.
Qed.

(** X7: the extraction directory never survives a call of
    [unzip_and_index], on any path. *)
Theorem unzipped_always_removed (w : World) (zip_path language : string) (fs : FS) :
  unzipped (snd (unzip_and_index w zip_path language fs)) = None.
Proof.
  unfold unzip_and_index.
  destruct (delete_phase w fs) as [-> | (msg & -> & _)]; [|reflexivity].
  destruct (extractall w zip_path) as [archive|msg]; [|reflexivity].
  cbv zeta. cbn [unzipped chroma_store].
  destruct (collect _ _); [destruct (extract_into _ _ _); reflexivity|].
  destruct (from_documents w _); reflexivity.
Qed.

(** X8: the answer tells whether a store was written.  An answer that starts
    with "Indexed" means the store now holds the documents of this run and
    nothing else, and names their number.  Any other answer means one of
    three things: there is no store; or the storage backend raised, and the
    store is what the backend had put on disk, which the indexer does not
    remove; or deleting the old store raised, and the store is what the
    failed deletion left, which the model takes to be the old store. *)
Theorem indexed_answer_means_store
        (w : World) (zip_path language : string) (fs : FS) :
  let r := unzip_and_index w zip_path language fs in
  (startswith (fst r) "Indexed" = true ->
   exists archive docs,
     extractall w zip_path = Ret archive
     /\ docs = collect (valid_exts_for language)
                       (walk (extract_into w (unzipped fs) archive))
     /\ docs <> []
     /\ from_documents w (all_documents w language docs) = Stored
     /\ chroma_store (snd r) = Some (all_documents w language docs)
     /\ fst r = "Indexed " ++ str_int (Z.of_nat (List.length docs))
                ++ " files and stored "
                ++ str_int (Z.of_nat (List.length (all_documents w language docs)))
                ++ " document chunks.")
  /\ (startswith (fst r) "Indexed" = false ->
      chroma_store (snd r) = None
      \/ (exists documents msg remains,
             from_documents w documents = StoreFailed msg remains
             /\ fst r = "Error during indexing: " ++ msg
             /\ chroma_store (snd r) = remains)
      \/ (exists msg,
             fst (force_delete w 3 fs) = Raise msg
             /\ fst r = "Error during indexing: " ++ msg
             /\ chroma_store (snd r) = chroma_store fs)).
Proof.
  cbv zeta. unfold unzip_and_index.
  destruct (delete_phase w fs) as [-> | (msg & -> & Hmsg)].
  - destruct (extractall w zip_path) as [archive|msg];
      [|split; [intros H; discriminate H | intros _; now left]].
    cbv zeta. cbn [unzipped chroma_store].
    destruct (collect _ _) as [|d docs] eqn:Hdocs.
    + destruct (extract_into _ _ _);
        (split; [intros H; discriminate H | intros _; now left]).
    + destruct (from_documents w _) as [|msg remains] eqn:Hback.
      * split; [|intros H; discriminate H]. intros _.
        exists archive, (d :: docs). rewrite Hdocs.
        repeat split; try reflexivity; [discriminate | exact Hback].
      * split; [intros H; discriminate H|]. intros _. right. left.
        eexists _, msg, remains. split; [exact Hback|]. split; reflexivity.
  - split; [intros H; discriminate H|]. intros _. right. right.
    exists msg. split; [exact Hmsg|]. split; reflexivity.
Qed.

Lemma indexed_answer_means_store_witness :
  chroma_store (snd (unzip_and_index (calm_world small_project) "upload.zip" "Python"
                                     indexed_disk))
  = Some [mkDocument "print('hello')" "unzipped/main.py" 0 "Python"]
  /\ chroma_store (snd (unzip_and_index (calm_world image_only) "upload.zip" "Python"
                                        indexed_disk)) = None.
Proof.
  split.
  - destruct (proj1 (indexed_answer_means_store (calm_world small_project) "upload.zip"
                       "Python" indexed_disk) eq_refl)
      as (archive & docs & Ha & Hd & _ & _ & Hs & _).
    injection Ha as <-. subst docs. exact Hs.
  - destruct (proj2 (indexed_answer_means_store (calm_world image_only) "upload.zip"
                       "Python" indexed_disk) eq_refl)
      as [H | [(documents & msg & remains & Hb & _) | (msg & Hm & _)]];
      [exact H | discriminate Hb | discriminate Hm].
Defined.

Lemma number_chunks_fields (language file_path : string) (chunks : list string) :
  forall j,
    map page_content (number_chunks language file_path j chunks) = chunks
    /\ map chunk_id (number_chunks language file_path j chunks)
       = seq j (List.length chunks)
    /\ Forall (fun d => source d = file_path /\ Indexer.language d = language)
              (number_chunks language file_path j chunks).
Proof.
  induction chunks as [|c rest IH]; intros j; simpl.
  - repeat split; constructor.
  - destruct (IH (S j)) as (Hc & Hi & Hf). rewrite Hc, Hi.
    repeat split. constructor; [split; reflexivity | exact Hf].
Qed.

(** X9: the documents made of one file carry the chunks of the splitter in
    order, are numbered from 0 without gap, and all name the file and the
    language of the run. *)
Theorem chunk_documents_fields (w : World) (language content file_path : string) :
  map page_content (chunk_documents w language content file_path)
  = split_text w content
  /\ map chunk_id (chunk_documents w language content file_path)
     = seq 0 (List.length (split_text w content))
  /\ Forall (fun d => source d = file_path /\ Indexer.language d = language)
            (chunk_documents w language content file_path).
Proof. apply number_chunks_fields. Qed.

Lemma collect_In (valid_exts : list string) (tree : list File) (content path : string) :
  In (content, path) (collect valid_exts tree) <->
  exists f, In f tree /\ eligible valid_exts f = true
            /\ read f = Ret content /\ path = path_join (root f) (name f).
Proof.
  induction tree as [|f rest IH]; simpl.
  - split; [intros [] | intros (? & [] & _)].
  - unfold eligible at 1.
    destruct (has_valid_ext valid_exts (name f)) eqn:Hext; cbn [andb].
    + destruct (read f) as [c|msg] eqn:Hread.
      * destruct (strip c =? "") eqn:Hs; cbn [negb].
        -- rewrite IH. split.
           ++ intros (g & Hg & He). exists g. split; [now right | exact He].
           ++ intros (g & [<-|Hg] & He & Hr & Hp).
              ** unfold eligible in He. rewrite Hext, Hread, Hs in He. discriminate.
              ** exists g. auto.
        -- simpl. rewrite IH. split.
           ++ intros [Heq|(g & Hg & He)].
              ** injection Heq as <- <-. exists f. unfold eligible.
                 rewrite Hext, Hread, Hs. auto.
              ** exists g. split; [now right | exact He].
           ++ intros (g & [<-|Hg] & He & Hr & Hp).
              ** left. rewrite Hread in Hr. injection Hr as <-. now subst path.
              ** right. exists g. auto.
      * rewrite IH. split.
        -- intros (g & Hg & He). exists g. split; [now right | exact He].
        -- intros (g & [<-|Hg] & He & Hr & Hp); [congruence | exists g; auto].
    + rewrite IH. split.
      * intros (g & Hg & He). exists g. split; [now right | exact He].
      * intros (g & [<-|Hg] & He & Hr & Hp).
        -- unfold eligible in He. rewrite Hext in He. discriminate.
        -- exists g. auto.
Qed.

Lemma collect_paths (valid_exts : list string) (tree : list File) :
  map snd (collect valid_exts tree)
  = map (fun f => path_join (root f) (name f)) (filter (eligible valid_exts) tree).
Proof.
  induction tree as [|f rest IH]; simpl; [reflexivity|].
  unfold eligible at 1.
  destruct (has_valid_ext valid_exts (name f)); cbn [andb]; [|exact IH].
  destruct (read f) as [c|msg]; [|exact IH].
  destruct (strip c =? ""); cbn [negb]; [exact IH|]. simpl. now rewrite IH.
Qed.

Lemma all_documents_of_eligible (w : World) (language : string)
      (valid_exts : list string) (tree : list File) :
  all_documents w language (collect valid_exts tree)
  = documents_of w language (filter (eligible valid_exts) tree).
Proof.
  unfold documents_of. induction tree as [|f rest IH]; simpl; [reflexivity|].
  unfold eligible at 1.
  destruct (has_valid_ext valid_exts (name f)); cbn [andb]; [|exact IH].
  destruct (read f) as [c|msg] eqn:Hr; [|exact IH].
  destruct (strip c =? ""); cbn [negb]; [exact IH|].
  cbn [all_documents flat_map]. unfold content_of at 1. rewrite Hr. now rewrite IH.
Qed.

(** X10: when [unzip_and_index] answers "Indexed ...", the files it has
    indexed are the eligible files of the tree under [unzipped] (name ending
    with an allowed extension, readable, content not blank), each once and in
    the order of the walk: the number of files in the answer is their number,
    and the store holds their documents, file after file. *)
Theorem indexed_files_are_eligible
        (w : World) (zip_path language : string) (fs : FS) (archive : Archive) :
  extractall w zip_path = Ret archive ->
  startswith (fst (unzip_and_index w zip_path language fs)) "Indexed" = true ->
  let files := filter (eligible (valid_exts_for language))
                      (walk (extract_into w (unzipped fs) archive)) in
  unzip_and_index w zip_path language fs
  = ("Indexed " ++ str_int (Z.of_nat (List.length files)) ++ " files and stored "
     ++ str_int (Z.of_nat (List.length (documents_of w language files)))
     ++ " document chunks.",
     mkFS (Some (documents_of w language files)) None).
Proof.
  intros Hzip. unfold unzip_and_index.
  destruct (delete_phase w fs) as [-> | (msg & -> & Hmsg)];
    [|intros H; discriminate H].
  rewrite Hzip. cbv zeta. cbn [unzipped chroma_store].
  pose proof (collect_paths (valid_exts_for language)
                (walk (extract_into w (unzipped fs) archive))) as Hpaths.
  pose proof (all_documents_of_eligible w language (valid_exts_for language)
                (walk (extract_into w (unzipped fs) archive))) as Hdocs.
  destruct (collect _ _) as [|d docs] eqn:Hcol.
  - destruct (extract_into _ _ _); intros H; discriminate H.
  - destruct (from_documents w _); [|intros H; discriminate H].
    intros _. rewrite Hdocs.
    replace (List.length (d :: docs))
      with (List.length (filter (eligible (valid_exts_for language))
                                (walk (extract_into w (unzipped fs) archive))));
      [reflexivity|].
    rewrite <- (length_map snd (d :: docs)), Hpaths. symmetry. apply length_map.
Qed.

Lemma indexed_files_are_eligible_witness :
  unzip_and_index (calm_world small_project) "upload.zip" "All" indexed_disk
  = ("Indexed 2 files and stored 2 document chunks.",
     mkFS (Some [mkDocument "print('hello')" "unzipped/main.py" 0 "All";
                 mkDocument "# Notes" "unzipped/docs/notes.md" 0 "All"]) None).
Proof.
  exact (indexed_files_are_eligible (calm_world small_project) "upload.zip" "All"
           indexed_disk (Members small_project) eq_refl eq_refl).
Defined.

Lemma incl_by_check (l m : list string) :
  forallb (fun x => existsb (String.eqb x) m) l = true -> incl l m.
Proof.
  intros H x Hx. rewrite forallb_forall in H. specialize (H x Hx).
  apply existsb_exists in H as (y & Hy & E). apply String.eqb_eq in E. now subst.
Qed.

Lemma valid_exts_in_All (language : string) :
  incl (valid_exts_for language) EXTENSIONS_All.
Proof.
  unfold valid_exts_for. cbn [dict_get EXTENSIONS].
  repeat match goal with
         | |- context [String.eqb ?k language] =>
             destruct (String.eqb k language); [apply incl_by_check; reflexivity|]
         end.
  apply incl_refl.
Qed.

(** X11: the filter "All" is the widest: a file that a run indexes under
    any language filter is indexed under "All" too. *)
Theorem All_indexes_superset (language : string) (tree : list File) :
  incl (collect (valid_exts_for language) tree) (collect (valid_exts_for "All") tree).
Proof.
  intros [content path] H. apply collect_In in H as (f & Hf & He & Hr & Hp).
  apply collect_In. exists f. repeat split; try assumption.
  unfold eligible in *. apply andb_true_iff in He as [Hext Hc]. rewrite Hc, andb_true_r.
  unfold has_valid_ext in *. apply existsb_exists in Hext as (ext & Hin & Hend).
  apply existsb_exists. exists ext. split; [|exact Hend].
  now apply (valid_exts_in_All language).
Qed.

Lemma All_indexes_superset_witness :
  In ("print('hello')", "unzipped/main.py")
     (collect (valid_exts_for "All") small_project).
Proof.
  apply (All_indexes_superset "Python" small_project). simpl. auto.
Defined.

End IndexerMore.

(** ** More on the retrieval tool adapter *)

Module AdapterMore.
Import Adapter.

Lemma dict_get_perm {V : Type} (d d' : list (string * V)) (key : string) :
  Permutation d d' -> NoDup (map fst d) -> dict_get d key = dict_get d' key.
Proof.
  induction 1 as [|[k v] l l' Hp IH|[k1 v1] [k2 v2] l|l l' l'' Hp1 IH1 Hp2 IH2];
    intros Hnd.
  - reflexivity.
  - simpl in *. inversion Hnd; subst. destruct (k =? key); [reflexivity | auto].
  - simpl in *. inversion Hnd as [|? ? Hnot Hrest]; subst.
    destruct (String.eqb_spec k1 key) as [->|]; [|reflexivity].
    destruct (String.eqb_spec k2 key) as [->|]; [|reflexivity].
    elim Hnot. now left.
  - rewrite IH1 by assumption. apply IH2.
    eapply Permutation_NoDup; [apply Permutation_map, Hp1 | exact Hnd].
Qed.

Lemma first_truthy_perm (d d' : list (string * PyVal)) (keys : list string) :
  Permutation d d' -> NoDup (map fst d) ->
  first_truthy keys d = first_truthy keys d'.
Proof.
  intros Hp Hnd. induction keys as [|key rest IH]; simpl; [reflexivity|].
  rewrite (dict_get_perm d d' key Hp Hnd), IH. reflexivity.
Qed.

Lemma first_truthy_found (d : list (string * PyVal)) :
  usable d "query" || usable d "input" || usable d "page_content" = true ->
  exists v, first_truthy adapter_keys d = Some v.
Proof.
  unfold usable, adapter_keys. cbn [first_truthy]. intros H.
  destruct (dict_get d "query") as [v|]; [destruct (truthy v); [eexists; reflexivity|]|];
    (destruct (dict_get d "input") as [v'|];
     [destruct (truthy v'); [eexists; reflexivity|]|]);
    (destruct (dict_get d "page_content") as [v''|];
     [destruct (truthy v''); [eexists; reflexivity|]|]);
    discriminate H.
Qed.

(** X12: when one of the keys "query", "input", "page_content" holds a true
    value, the query does not depend on the order of the items of the dict;
    the order only matters in the fall-back to the first value. *)
Theorem adapter_ignores_order (d d' : list (string * PyVal)) :
  Permutation d d' -> NoDup (map fst d) ->
  usable d "query" || usable d "input" || usable d "page_content" = true ->
  universal_input_adapter (Dict d) = universal_input_adapter (Dict d').
Proof.
  intros Hp Hnd Hu. unfold universal_input_adapter.
  rewrite <- (first_truthy_perm d d' adapter_keys Hp Hnd).
  destruct (first_truthy_found d Hu) as [v ->]. reflexivity.
Qed.

Lemma adapter_ignores_order_witness :
  universal_input_adapter
    (Dict [("page_content", Atom (AStr "readme")); ("input", Atom (AStr "parser"))])
  = universal_input_adapter
      (Dict [("input", Atom (AStr "parser")); ("page_content", Atom (AStr "readme"))]).
Proof.
  apply adapter_ignores_order.
  - apply perm_swap.
  - repeat constructor; simpl; intuition discriminate.
  - reflexivity.
Defined.

End AdapterMore.

(** ** The interaction log *)

Module MemoryProps.
Import Memory.

(** X13: a run of calls of [log_interaction] on a file that is absent or
    holds a list never raises, and [get_memory] then gives the earlier
    history followed by one record per call, in the order of the calls:
    nothing is dropped, changed or reordered. *)
Theorem log_all_appends (calls : list (string * Json * Json)) :
  forall (file : MemoryFile) (history : list Json),
    get_memory file = Ret (JList history) ->
    fst (log_all calls file) = Ret tt
    /\ get_memory (snd (log_all calls file))
       = Ret (JList (history ++ map record_of calls)).
Proof.
  induction calls as [|[[now prompt] jenkins_result] rest IH]; intros file history Hm.
  - simpl. now rewrite app_nil_r.
  - cbn [log_all map record_of].
    assert (Hstep : exists file',
               log_interaction now prompt jenkins_result file = (Ret tt, file')
               /\ get_memory file'
                  = Ret (JList (history ++ [interaction now prompt jenkins_result]))).
    { destruct file as [|v|msg]; simpl in Hm.
      - injection Hm as <-. eexists. split; reflexivity.
      - injection Hm as ->. eexists. split; reflexivity.
      - discriminate Hm. }
    destruct Hstep as (file' & -> & Hm').
    destruct (IH file' _ Hm') as [Hok Hget]. split; [exact Hok|].
    rewrite Hget, <- app_assoc. reflexivity.
Qed.

Lemma log_all_appends_witness :
  get_memory
    (snd (log_all [("2024-05-01T10:00:00", JAtom (AStr "build it"), JAtom (AStr "ok"));
                   ("2024-05-01T10:05:00", JAtom (AStr "status"), JAtom (AStr "SUCCESS"))]
                  Absent))
  = Ret (JList [interaction "2024-05-01T10:00:00" (JAtom (AStr "build it")) (JAtom (AStr "ok"));
                interaction "2024-05-01T10:05:00" (JAtom (AStr "status"))
                            (JAtom (AStr "SUCCESS"))]).
Proof.
  exact (proj2 (log_all_appends _ Absent [] eq_refl)).
Defined.

(** X14: on a file that [get_memory] cannot read as a list, be it text that
    is no JSON or a JSON value that is no list, [log_interaction] raises and
    leaves the file as it was. *)
Theorem log_on_unreadable_file
        (now : string) (prompt jenkins_result : Json) (file : MemoryFile) :
  (forall history, get_memory file <> Ret (JList history)) ->
  exists msg, log_interaction now prompt jenkins_result file = (Raise msg, file).
Proof.
  intros H. destruct file as [|v|msg]; simpl.
  - now elim (H []).
  - destruct v as [[| | |]|l|items]; simpl; try (eexists; reflexivity).
    now elim (H l).
  - eexists; reflexivity.
Qed.

Lemma log_on_unreadable_file_witness :
  exists msg,
    log_interaction "2024-05-01T10:00:00" (JAtom (AStr "p")) (JAtom (AStr "r"))
                    (Holds (JDict []))
    = (Raise msg, Holds (JDict [])).
Proof.
  apply log_on_unreadable_file. intros history H. discriminate H.
Defined.

End MemoryProps.

(** ** The set-up steps that write [.env] *)

Module SetupProps.
Import Setup PyStrFacts AnalyzerProps PyStrMore.

Section Values.
Variables jenkins_url username api_token : string.

Let upd := update_line jenkins_url username api_token.
Let three := settings_lines jenkins_url username api_token.

Lemma prefix_decompose (k s : string) :
  prefix k s = true -> exists r, s = k ++ r.
Proof.
  revert s. induction k as [|c k IH]; intros s H.
  - exists s. reflexivity.
  - destruct s as [|x s]; [discriminate|]. simpl in H.
    destruct (ascii_dec c x) as [->|]; [|discriminate].
    destruct (IH s H) as [r ->]. exists r. reflexivity.
Qed.

Lemma update_loop_map (lines : list string) :
  forall acc b,
    update_loop jenkins_url username api_token lines acc b
    = ((acc ++ map upd lines)%list, b || existsb jenkins_line lines).
Proof.
  induction lines as [|line rest IH]; intros acc b; cbn [update_loop map existsb].
  - now rewrite app_nil_r, orb_false_r.
  - unfold upd at 1, update_line, jenkins_line at 1.
    destruct (startswith line "JENKINS_URL=");
      [|destruct (startswith line "JENKINS_USERNAME=");
        [|destruct (startswith line "JENKINS_API_TOKEN=")]];
      rewrite IH, <- app_assoc; cbn [orb app]; rewrite ?orb_true_r; reflexivity.
Qed.

Lemma upd_plain (line : string) : jenkins_line line = false -> upd line = line.
Proof.
  unfold jenkins_line, upd, update_line. intros H.
  apply orb_false_iff in H as [H Ht]. apply orb_false_iff in H as [Hu Hn].
  now rewrite Hu, Hn, Ht.
Qed.

Lemma map_upd_plain (lines : list string) :
  existsb jenkins_line lines = false -> map upd lines = lines.
Proof.
  induction lines as [|line rest IH]; simpl; intros H; [reflexivity|].
  apply orb_false_iff in H as [Hl Hr]. now rewrite (upd_plain line Hl), (IH Hr).
Qed.

(** The lines written back, without the loop. *)
Lemma update_lines_eq (lines : list string) :
  update_lines jenkins_url username api_token lines
  = if existsb jenkins_line lines then map upd lines else (lines ++ three)%list.
Proof.
  unfold update_lines. rewrite update_loop_map. cbn [app orb].
  destruct (existsb jenkins_line lines) eqn:E; [reflexivity|].
  now rewrite (map_upd_plain lines E).
Qed.

Lemma jenkins_line_upd (line : string) : jenkins_line (upd line) = jenkins_line line.
Proof.
  unfold upd, update_line, jenkins_line.
  destruct (startswith line "JENKINS_URL=") eqn:Hu;
    [unfold startswith; now rewrite prefix_append|].
  destruct (startswith line "JENKINS_USERNAME=") eqn:Hn;
    [unfold startswith;
     rewrite (prefix_append "JENKINS_USERNAME=" username); now rewrite orb_true_r|].
  destruct (startswith line "JENKINS_API_TOKEN=") eqn:Ht;
    [unfold startswith;
     rewrite (prefix_append "JENKINS_API_TOKEN=" api_token); now rewrite orb_true_r|].
  now rewrite Hu, Hn, Ht.
Qed.

Lemma upd_idem (line : string) : upd (upd line) = upd line.
Proof.
  unfold upd, update_line.
  destruct (startswith line "JENKINS_URL=") eqn:Hu;
    [unfold startswith; now rewrite prefix_append|].
  destruct (startswith line "JENKINS_USERNAME=") eqn:Hn;
    [unfold startswith;
     rewrite (prefix_append "JENKINS_USERNAME=" username); reflexivity|].
  destruct (startswith line "JENKINS_API_TOKEN=") eqn:Ht;
    [unfold startswith;
     rewrite (prefix_append "JENKINS_API_TOKEN=" api_token); reflexivity|].
  now rewrite Hu, Hn, Ht.
Qed.

Lemma existsb_upd (lines : list string) :
  existsb jenkins_line (map upd lines) = existsb jenkins_line lines.
Proof.
  induction lines as [|line rest IH]; simpl; [reflexivity|].
  now rewrite jenkins_line_upd, IH.
Qed.

(** Writing the same settings again changes no line. *)
Lemma update_lines_idem (lines : list string) :
  update_lines jenkins_url username api_token
               (update_lines jenkins_url username api_token lines)
  = update_lines jenkins_url username api_token lines.
Proof.
  rewrite (update_lines_eq lines).
  destruct (existsb jenkins_line lines) eqn:E.
  - rewrite update_lines_eq, existsb_upd, E, map_map.
    apply map_ext. intros line. apply upd_idem.
  - rewrite update_lines_eq, existsb_app.
    replace (existsb jenkins_line three) with true
      by (unfold three, settings_lines, jenkins_line, startswith; cbn [existsb];
          now rewrite prefix_append).
    rewrite orb_true_r, map_app, (map_upd_plain lines E).
    f_equal. unfold three, settings_lines, upd, update_line, startswith. cbn [map].
    rewrite !prefix_append. reflexivity.
Qed.

Lemma upd_no_break (line : string) :
  has_char (chr 10) jenkins_url = false ->
  has_char (chr 10) username = false ->
  has_char (chr 10) api_token = false ->
  has_char (chr 10) line = false -> has_char (chr 10) (upd line) = false.
Proof.
  intros Hu Hn Ht Hl. unfold upd, update_line.
  destruct (startswith line "JENKINS_URL=");
    [rewrite has_char_append, Hu; reflexivity|].
  destruct (startswith line "JENKINS_USERNAME=");
    [rewrite has_char_append, Hn; reflexivity|].
  destruct (startswith line "JENKINS_API_TOKEN=");
    [rewrite has_char_append, Ht; reflexivity | exact Hl].
Qed.

Lemma update_lines_no_break (lines : list string) :
  has_char (chr 10) jenkins_url = false ->
  has_char (chr 10) username = false ->
  has_char (chr 10) api_token = false ->
  Forall (fun line => has_char (chr 10) line = false) lines ->
  Forall (fun line => has_char (chr 10) line = false)
         (update_lines jenkins_url username api_token lines).
Proof.
  intros Hu Hn Ht Hall. rewrite update_lines_eq.
  destruct (existsb jenkins_line lines).
  - rewrite Forall_forall in *. intros x Hx.
    apply in_map_iff in Hx as (line & <- & Hin). apply upd_no_break; auto.
  - apply Forall_app. split; [exact Hall|].
    unfold three, settings_lines.
    repeat constructor; rewrite has_char_append; [rewrite Hu|rewrite Hn|rewrite Ht];
      reflexivity.
Qed.

Lemma update_lines_nonempty (lines : list string) :
  lines <> [] -> update_lines jenkins_url username api_token lines <> [].
Proof.
  intros H. rewrite update_lines_eq.
  destruct lines as [|x rest]; [now elim H|].
  destruct (existsb jenkins_line (x :: rest)); discriminate.
Qed.

Lemma upd_is_url (line : string) :
  upd line = "JENKINS_URL=" ++ jenkins_url <-> startswith line "JENKINS_URL=" = true.
Proof.
  unfold upd, update_line.
  destruct (startswith line "JENKINS_URL=") eqn:Hu; [tauto|].
  destruct (startswith line "JENKINS_USERNAME=");
    [split; intros H; [simpl in H|]; discriminate H|].
  destruct (startswith line "JENKINS_API_TOKEN=");
    [split; intros H; [simpl in H|]; discriminate H|].
  split; [|discriminate]. intros ->. unfold startswith in Hu.
  now rewrite prefix_append in Hu.
Qed.

Lemma upd_is_username (line : string) :
  upd line = "JENKINS_USERNAME=" ++ username
  <-> startswith line "JENKINS_USERNAME=" = true.
Proof.
  unfold upd, update_line.
  destruct (startswith line "JENKINS_URL=") eqn:Hu.
  - split; intros H; [simpl in H; discriminate H|].
    apply prefix_decompose in H as [r ->]. discriminate Hu.
  - destruct (startswith line "JENKINS_USERNAME=") eqn:Hn; [tauto|].
    destruct (startswith line "JENKINS_API_TOKEN=");
      [split; intros H; [simpl in H|]; discriminate H|].
    split; [|discriminate]. intros ->. unfold startswith in Hn.
    now rewrite prefix_append in Hn.
Qed.

Lemma upd_is_token (line : string) :
  upd line = "JENKINS_API_TOKEN=" ++ api_token
  <-> startswith line "JENKINS_API_TOKEN=" = true.
Proof.
  unfold upd, update_line.
  destruct (startswith line "JENKINS_URL=") eqn:Hu.
  - split; intros H; [simpl in H; discriminate H|].
    apply prefix_decompose in H as [r ->]. discriminate Hu.
  - destruct (startswith line "JENKINS_USERNAME=") eqn:Hn.
    + split; intros H; [simpl in H; discriminate H|].
      apply prefix_decompose in H as [r ->]. discriminate Hn.
    + destruct (startswith line "JENKINS_API_TOKEN=") eqn:Ht; [tauto|].
      split; [|discriminate]. intros ->. unfold startswith in Ht.
      now rewrite prefix_append in Ht.
Qed.

(** A setting is among the lines written back exactly when the file had a
    line of its key, or no line of any of the three keys. *)
Lemma saved_iff (key value : string) :
  In (key ++ value) three ->
  (forall line, upd line = key ++ value <-> startswith line key = true) ->
  (forall line, startswith line key = true -> jenkins_line line = true) ->
  forall lines,
    In (key ++ value) (update_lines jenkins_url username api_token lines)
    <-> (existsb (fun line => startswith line key) lines = true
         \/ existsb jenkins_line lines = false).
Proof.
  intros Hthree Hupd Hjl lines. rewrite update_lines_eq.
  destruct (existsb jenkins_line lines) eqn:E.
  - rewrite in_map_iff, existsb_exists. split.
    + intros (line & Hl & Hin). left. exists line. split; [exact Hin | now apply Hupd].
    + intros [(line & Hin & Hs)|H]; [|discriminate H].
      exists line. split; [now apply Hupd | exact Hin].
  - split; [now right|]. intros _. apply in_or_app. now right.
Qed.

End Values.

(** X15: updating an existing file keeps every line that is not one of the
    three settings, at its place; when some line is a setting no line is
    added or removed, and when none is, the old content stays whole and the
    three settings follow it. *)
Theorem update_keeps_other_lines
        (jenkins_url username api_token content : string) :
  let lines := split content nl in
  let updated := update_lines jenkins_url username api_token lines in
  (forall i line,
      nth_error lines i = Some line -> jenkins_line line = false ->
      nth_error updated i = Some line)
  /\ (existsb jenkins_line lines = true -> List.length updated = List.length lines)
  /\ (existsb jenkins_line lines = false ->
      update_env jenkins_url username api_token content
      = content ++ nl ++ "JENKINS_URL=" ++ jenkins_url ++ nl
        ++ "JENKINS_USERNAME=" ++ username ++ nl
        ++ "JENKINS_API_TOKEN=" ++ api_token).
Proof.
  intros lines updated. unfold updated, update_env. fold lines.
  rewrite update_lines_eq. split; [|split].
  - intros i line Hi Hl. destruct (existsb jenkins_line lines).
    + rewrite nth_error_map, Hi. simpl. now rewrite upd_plain.
    + rewrite nth_error_app1; [exact Hi|]. apply nth_error_Some. congruence.
  - intros ->. apply length_map.
  - intros ->. rewrite join_app.
    + unfold lines. rewrite join_split. reflexivity.
    + apply split_go_nonempty.
    + discriminate.
Qed.

Lemma update_keeps_other_lines_witness :
  update_env "http://ci:8080" "ann" "t0k" ("OPENAI_API_KEY=sk-1" ++ nl ++ "DEBUG=1")
  = "OPENAI_API_KEY=sk-1" ++ nl ++ "DEBUG=1" ++ nl ++ "JENKINS_URL=http://ci:8080" ++ nl
    ++ "JENKINS_USERNAME=ann" ++ nl ++ "JENKINS_API_TOKEN=t0k".
Proof.
  exact (proj2 (proj2 (update_keeps_other_lines "http://ci:8080" "ann" "t0k"
                         ("OPENAI_API_KEY=sk-1" ++ nl ++ "DEBUG=1"))) eq_refl).
Defined.

(** X16: writing the same settings a second time changes nothing: the
    update of an updated file is that file, the values being single lines. *)
Theorem update_env_idempotent
        (jenkins_url username api_token content : string) :
  has_char (chr 10) jenkins_url = false ->
  has_char (chr 10) username = false ->
  has_char (chr 10) api_token = false ->
  update_env jenkins_url username api_token
             (update_env jenkins_url username api_token content)
  = update_env jenkins_url username api_token content.
Proof.
  intros Hu Hn Ht. unfold update_env at 1 2.
  rewrite split_join.
  - now rewrite update_lines_idem.
  - apply update_lines_nonempty, split_go_nonempty.
  - apply update_lines_no_break; try assumption.
    apply (split_go_lines content ""). reflexivity.
Qed.

Lemma update_env_idempotent_witness :
  update_env "http://ci:8080" "ann" "t0k"
             (update_env "http://ci:8080" "ann" "t0k" ("JENKINS_URL=old" ++ nl ++ "X=1"))
  = update_env "http://ci:8080" "ann" "t0k" ("JENKINS_URL=old" ++ nl ++ "X=1").
Proof.
  exact (update_env_idempotent "http://ci:8080" "ann" "t0k"
           ("JENKINS_URL=old" ++ nl ++ "X=1") eq_refl eq_refl eq_refl).
Defined.

(** X17: a setting is saved in an existing file exactly when the file had
    a line of its key or had no line of any of the three keys.  So a file
    with a [JENKINS_URL=] line and no [JENKINS_USERNAME=] line does not
    receive the user name, though the step reports success. *)
Theorem setting_saved_iff
        (jenkins_url username api_token : string) (lines : list string) :
  let updated := update_lines jenkins_url username api_token lines in
  (In ("JENKINS_URL=" ++ jenkins_url) updated
   <-> (existsb (fun line => startswith line "JENKINS_URL=") lines = true
        \/ existsb jenkins_line lines = false))
  /\ (In ("JENKINS_USERNAME=" ++ username) updated
      <-> (existsb (fun line => startswith line "JENKINS_USERNAME=") lines = true
           \/ existsb jenkins_line lines = false))
  /\ (In ("JENKINS_API_TOKEN=" ++ api_token) updated
      <-> (existsb (fun line => startswith line "JENKINS_API_TOKEN=") lines = true
           \/ existsb jenkins_line lines = false)).
Proof.
  cbv zeta. split; [|split]; apply saved_iff.
  - simpl. auto.
  - apply upd_is_url.
  - intros line H. unfold jenkins_line. now rewrite H.
  - simpl. auto.
  - apply upd_is_username.
  - intros line H. unfold jenkins_line. rewrite H. now rewrite orb_true_r.
  - simpl. auto.
  - apply upd_is_token.
  - intros line H. unfold jenkins_line. rewrite H. now rewrite orb_true_r.
Qed.

Lemma setting_saved_iff_witness :
  ~ In "JENKINS_USERNAME=ann"
       (update_lines "http://ci:8080" "ann" "t0k" ["JENKINS_URL=old"; "X=1"])
  /\ In "JENKINS_URL=http://ci:8080"
        (update_lines "http://ci:8080" "ann" "t0k" ["JENKINS_URL=old"; "X=1"]).
Proof.
  destruct (setting_saved_iff "http://ci:8080" "ann" "t0k" ["JENKINS_URL=old"; "X=1"])
    as (Hu & Hn & _).
  split.
  - intros H. apply Hn in H as [H|H]; discriminate H.
  - apply Hu. left. reflexivity.
Defined.

(** X18: [setup_existing_jenkins] succeeds exactly when the three answers
    are not blank and the probe of the server does not raise, whatever status
    the server answers; when it fails the file is left as it was, and with no
    file before, a success writes the template with the three values. *)
Theorem setup_existing_jenkins_outcome
        (probe : string -> result Z)
        (url_answer user_answer token_answer : string) (file : option string) :
  let r := setup_existing_jenkins probe url_answer user_answer token_answer file in
  (fst r = true <->
   strip url_answer <> ""
   /\ (exists code, probe (strip url_answer ++ "/api/json") = Ret code)
   /\ strip user_answer <> "" /\ strip token_answer <> "")
  /\ (fst r = false -> snd r = file)
  /\ (fst r = true -> file = None ->
      snd r = Some (jenkins_template (strip url_answer) (strip user_answer)
                                     (strip token_answer))).
Proof.
  cbv zeta. unfold setup_existing_jenkins.
  destruct (String.eqb_spec (strip url_answer) "") as [Eu|Eu].
  { split; [|split]; try (intros H; discriminate H); try reflexivity.
    split; [discriminate | intros [H _]; now elim H]. }
  destruct (probe (strip url_answer ++ "/api/json")) as [code|msg].
  2:{ split; [|split]; try (intros H; discriminate H); try reflexivity.
      split; [discriminate | intros (_ & [code H] & _); discriminate H]. }
  destruct (String.eqb_spec (strip user_answer) "") as [En|En].
  { split; [|split]; try (intros H; discriminate H); try reflexivity.
    split; [discriminate | intros (_ & _ & H & _); now elim H]. }
  destruct (String.eqb_spec (strip token_answer) "") as [Et|Et].
  { split; [|split]; try (intros H; discriminate H); try reflexivity.
    split; [discriminate | intros (_ & _ & _ & H); now elim H]. }
  cbn [orb].
  destruct file as [content|]; (split; [|split]); try (intros H; discriminate H).
  - split; [intros _ | reflexivity]. repeat split; eauto.
  - intros _ H. discriminate H.
  - split; [intros _ | reflexivity]. repeat split; eauto.
  - reflexivity.
Qed.

Lemma setup_existing_jenkins_outcome_witness :
  setup_existing_jenkins (fun _ => Ret 503%Z) " http://ci:8080 " "ann" "t0k" None
  = (true, Some (jenkins_template "http://ci:8080" "ann" "t0k"))
  /\ snd (setup_existing_jenkins (fun _ => Raise "timed out") "http://ci:8080" "ann" "t0k"
                                 (Some "X=1")) = Some "X=1".
Proof.
  destruct (setup_existing_jenkins_outcome (fun _ => Ret 503%Z) " http://ci:8080 "
              "ann" "t0k" None) as (H1 & _ & H3).
  destruct (setup_existing_jenkins_outcome (fun _ => Raise "timed out") "http://ci:8080"
              "ann" "t0k" (Some "X=1")) as (_ & H2 & _).
  split.
  - apply injective_projections.
    + apply H1. repeat split; try discriminate. exists 503%Z. reflexivity.
    + apply H3; reflexivity.
  - apply H2. reflexivity.
Defined.

Lemma update_env_template (jenkins_url username api_token api_key : string) :
  has_char (chr 10) api_key = false ->
  update_env jenkins_url username api_token (openai_template api_key)
  = "# OpenAI API Configuration" ++ nl ++
    "OPENAI_API_KEY=" ++ api_key ++ nl ++
    nl ++
    "# Jenkins Configuration (optional)" ++ nl ++
    "JENKINS_URL=" ++ jenkins_url ++ nl ++
    "JENKINS_USERNAME=" ++ username ++ nl ++
    "JENKINS_API_TOKEN=" ++ api_token ++ nl.
Proof.
  intros Hk. unfold update_env, openai_template.
  rewrite split_first_line by reflexivity.
  rewrite <- (append_assoc "OPENAI_API_KEY=" api_key).
  rewrite split_first_line by (rewrite has_char_append, Hk; reflexivity).
  match goal with
  | |- context [split ?rest nl] =>
      replace (split rest nl)
        with [""; "# Jenkins Configuration (optional)";
              "JENKINS_URL=http://localhost:8080";
              "JENKINS_USERNAME=your_jenkins_username";
              "JENKINS_API_TOKEN=your_jenkins_api_token"; ""]
        by (vm_compute; reflexivity)
  end.
  rewrite update_lines_eq.
  replace (existsb jenkins_line _) with true by reflexivity.
  cbn [map]. unfold update_line at 1 3 4 8.
  cbn [startswith prefix].
  replace (update_line jenkins_url username api_token ("OPENAI_API_KEY=" ++ api_key))
    with ("OPENAI_API_KEY=" ++ api_key) by reflexivity.
  replace (update_line jenkins_url username api_token "JENKINS_URL=http://localhost:8080")
    with ("JENKINS_URL=" ++ jenkins_url) by reflexivity.
  replace (update_line jenkins_url username api_token
                       "JENKINS_USERNAME=your_jenkins_username")
    with ("JENKINS_USERNAME=" ++ username) by reflexivity.
  replace (update_line jenkins_url username api_token
                       "JENKINS_API_TOKEN=your_jenkins_api_token")
    with ("JENKINS_API_TOKEN=" ++ api_token) by reflexivity.
  cbn [join]. rewrite !append_assoc. reflexivity.
Qed.

(** X19: the two steps in the order of [main]: after [setup_openai_api_key]
    has written the file for a valid key, [setup_existing_jenkins] replaces
    the three placeholder settings by the values given and keeps the key and
    every other line: the file is the template with the four values. *)
Theorem key_then_jenkins
        (current_key : option string) (answer : string)
        (write : string -> result unit) (probe : string -> result Z)
        (url_answer user_answer token_answer : string) (file : option string) :
  key_configured current_key = false ->
  strip answer <> "" ->
  startswith (strip answer) "sk-" = true ->
  has_char (chr 10) (strip answer) = false ->
  write (openai_template (strip answer)) = Ret tt ->
  strip url_answer <> "" ->
  (exists code, probe (strip url_answer ++ "/api/json") = Ret code) ->
  strip user_answer <> "" ->
  strip token_answer <> "" ->
  fst (setup_openai_api_key current_key answer write file) = true
  /\ setup_existing_jenkins probe url_answer user_answer token_answer
       (snd (setup_openai_api_key current_key answer write file))
     = (true,
        Some ("# OpenAI API Configuration" ++ nl ++
              "OPENAI_API_KEY=" ++ strip answer ++ nl ++
              nl ++
              "# Jenkins Configuration (optional)" ++ nl ++
              "JENKINS_URL=" ++ strip url_answer ++ nl ++
              "JENKINS_USERNAME=" ++ strip user_answer ++ nl ++
              "JENKINS_API_TOKEN=" ++ strip token_answer ++ nl)).
Proof.
  intros Hc Ha Hsk Hnl Hw Hu [code Hp] Hn Ht.
  apply String.eqb_neq in Ha, Hu, Hn, Ht.
  unfold setup_openai_api_key. rewrite Hc, Ha, Hsk, Hw. cbn [negb fst snd].
  split; [reflexivity|].
  unfold setup_existing_jenkins. rewrite Hu, Hp, Hn, Ht. cbn [orb].
  now rewrite (update_env_template _ _ _ _ Hnl).
Qed.

Lemma key_then_jenkins_witness :
  setup_existing_jenkins (fun _ => Ret 200%Z) "http://ci:8080" "ann" "t0k"
    (snd (setup_openai_api_key None " sk-abc " (fun _ => Ret tt) None))
  = (true,
     Some ("# OpenAI API Configuration" ++ nl ++
           "OPENAI_API_KEY=sk-abc" ++ nl ++
           nl ++
           "# Jenkins Configuration (optional)" ++ nl ++
           "JENKINS_URL=http://ci:8080" ++ nl ++
           "JENKINS_USERNAME=ann" ++ nl ++
           "JENKINS_API_TOKEN=t0k" ++ nl)).
Proof.
  refine (proj2 (key_then_jenkins None " sk-abc " (fun _ => Ret tt) (fun _ => Ret 200%Z)
                   "http://ci:8080" "ann" "t0k" None eq_refl _ eq_refl eq_refl eq_refl
                   _ _ _ _)); try discriminate.
  exists 200%Z. reflexivity.
Defined.

End SetupProps.

(** ** Sample evaluations *)

Module Examples.
Import Jenkins Indexer Samples Adapter.

Example lower_ex : lower "Check STATUS" = "check status".
Proof. reflexivity. Qed.

Example strip_ex : strip ("  run it " ++ nl) = "run it".
Proof. reflexivity. Qed.

Example split_ex : split "xxabxx" "xx" = [""; "ab"; ""].
Proof. reflexivity. Qed.

Example split_overlap_ex : split "aaa" "aa" = [""; "a"].
Proof. reflexivity. Qed.

Example split_max_ex :
  split_max ("k:" ++ nl ++ "l1" ++ nl ++ "l2") nl 1 = ["k:"; "l1" ++ nl ++ "l2"].
Proof. reflexivity. Qed.

Example endswith_ex :
  endswith "main.py" ".py" = true /\ endswith "py" ".py" = false.
Proof. split; reflexivity. Qed.

(** A text with a keyword of the first group is a trigger, whatever else it
    names. *)
Example router_build_logs_ex :
  jenkins_operations "demo" "check status of build logs" = trigger_jenkins_job "demo".
Proof. reflexivity. Qed.

(** The failing log names three categories: "ModuleNotFoundError:" also ends
    with the pattern "error:". *)
Example found_errors_ex :
  found_errors failing_log = ["Compilation Error"; "Dependency Issue"; "Test Failure"].
Proof. vm_compute. reflexivity. Qed.

(** A job named like the header of the log answer leaves no line to cut at:
    the analyzer raises. *)
Example analyze_raises_ex :
  fst (analyze_build_errors "Build logs for" (demo_env 200 "ok"))
  = Raise "list index out of range".
Proof. vm_compute. reflexivity. Qed.

(** An archive without member leaves no directory to remove. *)
Example empty_archive_ex :
  unzip_and_index
    (mkWorld (fun _ => Removed) (fun _ => Ret NoMember) "no such directory"
             (fun tree => tree) Splitter.split_text (fun _ => Stored))
    "upload.zip" "All" (mkFS None None)
  = ("Error during indexing: no such directory", mkFS None None).
Proof. reflexivity. Qed.

Example index_ex :
  unzip_and_index (calm_world small_project) "upload.zip" "Python" indexed_disk
  = ("Indexed 1 files and stored 1 document chunks.",
     mkFS (Some [mkDocument "print('hello')" "unzipped/main.py" 0 "Python"]) None).
Proof. vm_compute. reflexivity. Qed.

(** Three rounds of a locked store end the run with the store in place. *)
Example locked_store_ex :
  unzip_and_index
    (mkWorld (fun _ => PermissionError) (fun _ => Ret (Members small_project))
             "no such directory" (fun tree => tree) Splitter.split_text
             (fun _ => Stored))
    "upload.zip" "Python" indexed_disk
  = ("Error during indexing: Failed to delete chroma_store after 3 retries.",
     indexed_disk).
Proof. vm_compute. reflexivity. Qed.

Example split_text_ex :
  map String.length (Splitter.split_text (replicate 2500 "a")) = [1000; 1000; 700]%nat.
Proof. vm_compute. reflexivity. Qed.

End Examples.
